(** * Codegen SDK wrapper (src/main.py): the bearer-token gate and the
      polling endpoint [run_codegen_agent], embedded as Rocq functions.

    The remote agent service, the clock and [asyncio.sleep] are external
    collaborators: they are the methods of the class [World].  Every call the
    handler makes to them is recorded, in order, in a trace of [event]s, so
    that statements such as "before any remote call" or "no further refresh"
    are statements about that trace.

    Python floats ([time.time()]) are modelled as exact rationals; rounding
    is not modelled. *)

From Stdlib Require Import String List ZArith QArith Bool Lia Lqa DecimalString.
Import ListNotations.
Local Open Scope string_scope.

(** ** Python values that reach [str()] or an f-string *)

Inductive pyval : Type :=
| PyNone
| PyBool (b : bool)
| PyInt (z : Z)
| PyStr (s : string).

(** [str(v)]; an f-string field [{v}] formats these values the same way. *)
Definition py_str (v : pyval) : string :=
  match v with
  | PyNone => "None"
  | PyBool true => "True"
  | PyBool false => "False"
  | PyInt z => NilZero.string_of_int (Z.to_int z)
  | PyStr s => s
  end.

(** An exception raised by the SDK; [str(e)] is its text. *)
Inductive pyexn : Type := Exception (text : string).

Definition exn_str (e : pyexn) : string :=
  match e with Exception text => text end.

(** [fastapi.HTTPException(status_code=..., detail=...)]. *)
Record HTTPException : Type :=
  mkHTTPException { status_code : Z; detail : string }.

Definition HTTP_401_UNAUTHORIZED : Z := 401.
Definition HTTP_403_FORBIDDEN : Z := 403.
Definition HTTP_500_INTERNAL_SERVER_ERROR : Z := 500.

(** ** Models (main.py, lines 43-50) and the SDK's task object *)

Module Task.
(** The attributes the handler reads.  [status] and [result] are read with
    plain attribute access; [id] and [error_message] are read with
    [getattr(task, name, default)], so they may be absent ([None] here).
    [error_message], when present, is text: it is passed to a field typed
    [str | None]. *)
Record t : Type := mk {
  id : option pyval;
  status : string;
  result : pyval;
  error_message : option string
}.
End Task.

Module CodegenRequest.
Record t : Type := mk { prompt : string }.
End CodegenRequest.

Module CodegenResponse.
Record t : Type := mk {
  status : string;
  result : option string;
  error : option string;
  task_id : option string
}.
End CodegenResponse.

Record HTTPAuthorizationCredentials : Type :=
  mkCredentials { scheme : string; credentials : string }.

(** ** Security (main.py, lines 57-69) *)

Definition verify_api_key (APP_API_KEY : string)
    (c : HTTPAuthorizationCredentials) : HTTPException + string :=
  if negb (scheme c =? "Bearer") then
    inl (mkHTTPException HTTP_403_FORBIDDEN "Invalid authentication scheme")
  else if negb (credentials c =? APP_API_KEY) then
    inl (mkHTTPException HTTP_401_UNAUTHORIZED "Invalid API Key")
  else
    inr (credentials c).

(** ** The outside world *)

(** What the handler asks of its environment.  [now] is the clock that
    [time.time()] reads; [agent_run] is [agent.run(prompt)]; [task_refresh]
    is [task.refresh()], which mutates the task in place: it is given the
    task as it is and returns the task as it has become; [sleep] is
    [asyncio.sleep].  The two remote calls may raise. *)
Class World (W : Type) : Type := {
  now : W -> Q;
  agent_run : string -> W -> (pyexn + Task.t) * W;
  task_refresh : Task.t -> W -> (pyexn + Task.t) * W;
  sleep : Q -> W -> W
}.

(** One entry per call to the outside world.  [EvSleep] and [EvRefresh]
    carry the clock at the moment of the call; [EvRun] and [EvRefresh] carry
    what the call returned or raised. *)
Inductive event : Type :=
| EvRun (prompt : string) (r : pyexn + Task.t)
| EvTime (t : Q)
| EvSleep (at_ : Q) (d : Q)
| EvRefresh (at_ : Q) (r : pyexn + Task.t).

(** ** A state, exception and trace monad for the handler's body *)

Inductive outcome (A : Type) : Type :=
| Ret (a : A)
| Raise (e : pyexn)
| OutOfFuel.
Arguments Ret {A} a.
Arguments Raise {A} e.
Arguments OutOfFuel {A}.

Definition M (W A : Type) : Type := W -> outcome A * W * list event.

Definition ret {W A} (a : A) : M W A := fun w => (Ret a, w, []).

Definition bind {W A B} (c : M W A) (k : A -> M W B) : M W B :=
  fun w =>
    match c w with
    | (Ret a, w1, tr1) =>
        match k a w1 with (o, w2, tr2) => (o, w2, (tr1 ++ tr2)%list) end
    | (Raise e, w1, tr1) => (Raise e, w1, tr1)
    | (OutOfFuel, w1, tr1) => (OutOfFuel, w1, tr1)
    end.

Notation "x <- c1 ;; c2" := (bind c1 (fun x => c2))
  (at level 61, c1 at next level, right associativity).
Notation "c1 ;;; c2" := (bind c1 (fun _ => c2))
  (at level 61, right associativity).

Definition of_result {A} (r : pyexn + A) : outcome A :=
  match r with inl e => Raise e | inr a => Ret a end.

Section Handler.

Context {W : Type} {world : World W}.

(** [time.time()] *)
Definition time_time : M W Q :=
  fun w => (Ret (now w), w, [EvTime (now w)]).

(** [await asyncio.sleep(d)] *)
Definition asyncio_sleep (d : Q) : M W unit :=
  fun w => (Ret tt, sleep d w, [EvSleep (now w) d]).

(** [await loop.run_in_executor(None, agent.run, prompt)] *)
Definition run_in_executor_agent_run (prompt : string) : M W Task.t :=
  fun w => let (r, w') := agent_run prompt w in
           (of_result r, w', [EvRun prompt r]).

(** [await loop.run_in_executor(None, task.refresh)] *)
Definition run_in_executor_task_refresh (task : Task.t) : M W Task.t :=
  fun w => let (r, w') := task_refresh task w in
           (of_result r, w', [EvRefresh (now w) r]).

(** ** The endpoint (main.py, lines 80-139) *)

Definition timeout_seconds : Z := 120.
Definition polling_interval_seconds : Z := 3.

(** [getattr(task, 'id', 'N/A')] *)
Definition getattr_id (task : Task.t) : pyval :=
  match Task.id task with Some v => v | None => PyStr "N/A" end.

(** [getattr(task, 'error_message', 'Codegen task failed.')] *)
Definition getattr_error_message (task : Task.t) : string :=
  match Task.error_message task with
  | Some m => m
  | None => "Codegen task failed."
  end.

(** [x > y] on the clock's values. *)
Definition Qgtb (x y : Q) : bool := negb (Qle_bool x y).

(** Line 108. *)
Definition timeout_response (task : Task.t) : CodegenResponse.t :=
  CodegenResponse.mk "timeout" None
    (Some ("Task timed out after " ++ py_str (PyInt timeout_seconds)
           ++ " seconds."))
    (Some (py_str (getattr_id task))).

(** Line 123. *)
Definition active_response (task : Task.t) : CodegenResponse.t :=
  CodegenResponse.mk (Task.status task)
    (Some ("Task ID: " ++ py_str (getattr_id task) ++ " is now active."))
    None
    (Some (py_str (getattr_id task))).

(** Line 128. *)
Definition completed_response (task : Task.t) : CodegenResponse.t :=
  CodegenResponse.mk (Task.status task)
    (Some (py_str (Task.result task)))
    None
    (Some (py_str (getattr_id task))).

(** Line 132. *)
Definition failed_response (task : Task.t) : CodegenResponse.t :=
  CodegenResponse.mk (Task.status task)
    None
    (Some (getattr_error_message task))
    (Some (py_str (getattr_id task))).

(** How the [while] loop of lines 105-118 is left: by the [return] of line
    108, or by its condition or the [break] of line 118, with the task as it
    then is. *)
Inductive loop_exit : Type :=
| LoopReturn (r : CodegenResponse.t)
| LoopDone (task : Task.t).

(** The [while task.status == "pending"] loop.  [fuel] bounds the number of
    iterations; a loop that needs more yields [OutOfFuel]. *)
Fixpoint poll (fuel : nat) (start_time : Q) (task : Task.t) : M W loop_exit :=
  if Task.status task =? "pending" then
    match fuel with
    | O => fun w => (OutOfFuel, w, [])
    | S fuel' =>
        t <- time_time ;;
        if Qgtb (t - start_time) (inject_Z timeout_seconds) then
          ret (LoopReturn (timeout_response task))
        else
          asyncio_sleep (inject_Z polling_interval_seconds) ;;;
          task' <- run_in_executor_task_refresh task ;;
          if negb (Task.status task' =? "pending") then
            ret (LoopDone task')
          else
            poll fuel' start_time task'
    end
  else ret (LoopDone task).

Definition status_in (s : string) (l : list string) : bool :=
  existsb (String.eqb s) l.

(** Lines 121-132: the answer for the task as the loop left it.  [None] is
    the value of a Python function that reaches its end without a
    [return]. *)
Definition respond (task : Task.t) : option CodegenResponse.t :=
  if negb (status_in (Task.status task) ["pending"; "completed"; "failed"])
  then Some (active_response task)
  else if Task.status task =? "completed"
  then Some (completed_response task)
  else if Task.status task =? "failed"
  then Some (failed_response task)
  else None.

(** The body of the [try] (lines 88-132). *)
Definition try_body (fuel : nat) (request : CodegenRequest.t)
    : M W (option CodegenResponse.t) :=
  task <- run_in_executor_agent_run (CodegenRequest.prompt request) ;;
  start_time <- time_time ;;
  e <- (if Task.status task =? "pending"
        then poll fuel start_time task
        else ret (LoopDone task)) ;;
  match e with
  | LoopReturn r => ret (Some r)
  | LoopDone task => ret (respond task)
  end.

(** What a call of the endpoint function amounts to: a returned value, a
    raised [HTTPException], or no answer within the fuel. *)
Inductive endpoint_result : Type :=
| Returned (r : option CodegenResponse.t)
| Raised (h : HTTPException)
| NoAnswer.

(** Line 138: [f"An internal error occurred: {e}"]. *)
Definition internal_error (e : pyexn) : HTTPException :=
  mkHTTPException HTTP_500_INTERNAL_SERVER_ERROR
    ("An internal error occurred: " ++ exn_str e).

(** [run_codegen_agent]: the [try] body under [except Exception as e]. *)
Definition run_codegen_agent (fuel : nat) (request : CodegenRequest.t) (w : W)
    : endpoint_result * W * list event :=
  match try_body fuel request w with
  | (Ret r, w', tr) => (Returned r, w', tr)
  | (Raise e, w', tr) => (Raised (internal_error e), w', tr)
  | (OutOfFuel, w', tr) => (NoAnswer, w', tr)
  end.

(** [POST /run-agent]: the route declares
    [dependencies=[Depends(verify_api_key)]], so the dependency runs first
    and the endpoint function runs only when it did not raise. *)
Definition post_run_agent (APP_API_KEY : string) (fuel : nat)
    (c : HTTPAuthorizationCredentials) (request : CodegenRequest.t) (w : W)
    : endpoint_result * W * list event :=
  match verify_api_key APP_API_KEY c with
  | inl h => (Raised h, w, [])
  | inr _ => run_codegen_agent fuel request w
  end.

End Handler.

(** ** A scripted world, for running the handler on concrete inputs *)

Module Script.
(** The clock, what [agent.run] answers, how long that takes, and the
    answers of the successive [refresh] calls.  A [refresh] beyond the
    script leaves the task as it is.  [sleep d] advances the clock by [d];
    a [refresh] takes no time. *)
Record t : Type := mk {
  clock : Q;
  submit : pyexn + Task.t;
  submit_takes : Q;
  refreshes : list (pyexn + Task.t)
}.

Definition run (_ : string) (w : t) : (pyexn + Task.t) * t :=
  (submit w, mk (clock w + submit_takes w) (submit w) (submit_takes w) (refreshes w)).

Definition refresh (task : Task.t) (w : t) : (pyexn + Task.t) * t :=
  match refreshes w with
  | [] => (inr task, w)
  | r :: rest => (r, mk (clock w) (submit w) (submit_takes w) rest)
  end.

Definition wait (d : Q) (w : t) : t :=
  mk (clock w + d) (submit w) (submit_takes w) (refreshes w).

#[global] Instance world : World t := {|
  now := clock;
  agent_run := run;
  task_refresh := refresh;
  sleep := wait
|}.
End Script.

(** Inputs on which the handler is run below. *)
Definition request_hi : CodegenRequest.t := CodegenRequest.mk "hi".

Definition task_pending : Task.t :=
  Task.mk (Some (PyInt 42)) "pending" PyNone None.
Definition task_completed : Task.t :=
  Task.mk (Some (PyInt 42)) "completed" (PyStr "done") None.
Definition task_failed : Task.t :=
  Task.mk None "failed" PyNone None.
Definition task_running : Task.t :=
  Task.mk (Some (PyInt 42)) "running" PyNone None.

(** Pending after submit and after the first refresh, completed at the
    second. *)
Definition world_completes : Script.t :=
  Script.mk 0 (inr task_pending) 0 [inr task_pending; inr task_completed].
(** Failed at the first refresh, with no id and no error message. *)
Definition world_fails : Script.t :=
  Script.mk 0 (inr task_pending) 0 [inr task_failed].
(** Running at the second refresh; it would be completed at the third. *)
Definition world_runs : Script.t :=
  Script.mk 0 (inr task_pending) 0
    [inr task_pending; inr task_running; inr task_completed].
(** Pending for ever. *)
Definition world_stuck : Script.t :=
  Script.mk 0 (inr task_pending) 0 [].
(** Pending at the first forty refreshes, the last of them 120 seconds after
    [start_time]; completed at the forty-first, 123 seconds after it. *)
Definition world_late : Script.t :=
  Script.mk 0 (inr task_pending) 0 (repeat (inr task_pending) 40 ++ [inr task_completed]).
(** [agent.run] raises. *)
Definition world_unreachable : Script.t :=
  Script.mk 0 (inl (Exception "service unreachable")) 0 [].
(** The second refresh raises. *)
Definition world_drops : Script.t :=
  Script.mk 0 (inr task_pending) 0
    [inr task_pending; inl (Exception "connection reset"); inr task_completed].

(** A task whose id is a string, running at the first refresh. *)
Definition task_named : Task.t :=
  Task.mk (Some (PyStr "run-7")) "running" PyNone None.
Definition world_named : Script.t :=
  Script.mk 0 (inr task_pending) 0 [inr task_named].

(** A world whose task never leaves the pending status: only the clock
    moves, by the length of each sleep. *)
Module Frozen.
Record t : Type := mk { clock : Q }.

#[global] Instance world : World t := {|
  now := clock;
  agent_run := fun _ w => (inr task_pending, w);
  task_refresh := fun task w => (inr task, w);
  sleep := fun d w => mk (clock w + d)
|}.
End Frozen.

(** ** Reading an execution *)

(** The answer and the trace of a run of the endpoint. *)
Definition answer {W} (x : endpoint_result * W * list event) : endpoint_result :=
  fst (fst x).

Definition trace {W} (x : endpoint_result * W * list event) : list event :=
  snd x.

(** The task a call handed back, if it did. *)
Definition returned_task (e : event) : option Task.t :=
  match e with
  | EvRun _ (inr t) => Some t
  | EvRefresh _ (inr t) => Some t
  | _ => None
  end.

(** The task as the handler holds it after the events [tr], starting from
    [cur]: what the last successful [agent.run] or [refresh] made of it. *)
Fixpoint held_after (cur : option Task.t) (tr : list event) : option Task.t :=
  match tr with
  | [] => cur
  | e :: tr' =>
      held_after (match returned_task e with Some t => Some t | None => cur end) tr'
  end.

Definition held_task (tr : list event) : option Task.t := held_after None tr.

(** [task] is what [agent.run] or some [refresh] of the execution returned:
    the handler has seen the task in this state. *)
Definition observed (task : Task.t) (tr : list event) : Prop :=
  (exists p, In (EvRun p (inr task)) tr) \/
  (exists at_, In (EvRefresh at_ (inr task)) tr).

(** The clock at each [refresh] call, in order. *)
Fixpoint refresh_times (tr : list event) : list Q :=
  match tr with
  | [] => []
  | EvRefresh at_ _ :: tr' => at_ :: refresh_times tr'
  | _ :: tr' => refresh_times tr'
  end.

(** The reading of [start_time = time.time()] (line 98): the second event of
    a run whose submit did not raise. *)
Definition start_time_of (tr : list event) : option Q :=
  match tr with
  | EvRun _ _ :: EvTime t :: _ => Some t
  | _ => None
  end.

(** Every [refresh] in [tr] returned normally with the task still pending. *)
Definition all_pending (tr : list event) : Prop :=
  Forall (fun e => match e with
                   | EvRefresh _ r =>
                       match r with
                       | inr t => Task.status t = "pending"
                       | inl _ => False
                       end
                   | _ => True
                   end) tr.

Definition all_pendingb (tr : list event) : bool :=
  forallb (fun e => match e with
                    | EvRefresh _ (inr t) => Task.status t =? "pending"
                    | EvRefresh _ (inl _) => false
                    | _ => true
                    end) tr.

(** The task, pending after submit, was still pending at every [refresh]
    answered so far when a further [refresh] was issued more than [limit]
    seconds after [start_time]: its status stayed pending for longer than
    [limit]. *)
Definition pending_for_longer_than (limit : Q) (tr : list event) : Prop :=
  exists p t0 start mid at_ r rest,
    tr = EvRun p (inr t0) :: EvTime start :: mid ++ EvRefresh at_ r :: rest /\
    Task.status t0 = "pending" /\
    all_pending mid /\
    limit < at_ - start.

(** The traces and results the loop of lines 105-118 can produce from a
    task: nothing when the task is not pending; otherwise a clock reading
    that is past the limit and the timeout answer, or a clock reading within
    the limit, a sleep of the polling interval, a [refresh], and, unless the
    [refresh] raised, whatever the loop produces from the refreshed task. *)
Inductive poll_shape (start : Q) : Task.t -> list event -> outcome loop_exit -> Prop :=
| shape_done task :
    Task.status task <> "pending" ->
    poll_shape start task [] (Ret (LoopDone task))
| shape_fuel task :
    Task.status task = "pending" ->
    poll_shape start task [] OutOfFuel
| shape_timeout task t :
    Task.status task = "pending" ->
    inject_Z timeout_seconds < t - start ->
    poll_shape start task [EvTime t] (Ret (LoopReturn (timeout_response task)))
| shape_raise task t at_ e :
    Task.status task = "pending" ->
    t - start <= inject_Z timeout_seconds ->
    poll_shape start task
      [EvTime t; EvSleep t (inject_Z polling_interval_seconds); EvRefresh at_ (inl e)]
      (Raise e)
| shape_iter task t at_ task' tr o :
    Task.status task = "pending" ->
    t - start <= inject_Z timeout_seconds ->
    poll_shape start task' tr o ->
    poll_shape start task
      (EvTime t :: EvSleep t (inject_Z polling_interval_seconds)
         :: EvRefresh at_ (inr task') :: tr)
      o.

(** What the endpoint makes of the way the loop ended. *)
Definition finish (o : outcome loop_exit) : endpoint_result :=
  match o with
  | Ret (LoopReturn r) => Returned (Some r)
  | Ret (LoopDone task) => Returned (respond task)
  | Raise e => Raised (internal_error e)
  | OutOfFuel => NoAnswer
  end.

(** The traces and answers of [run_codegen_agent]. *)
Inductive run_shape : list event -> endpoint_result -> Prop :=
| run_submit_raised p e :
    run_shape [EvRun p (inl e)] (Raised (internal_error e))
| run_polled p task start tr o :
    poll_shape start task tr o ->
    run_shape (EvRun p (inr task) :: EvTime start :: tr) (finish o).

(** ** Configuration and start-up (main.py, lines 12-33) *)

(** [os.getenv(name)] on the process environment as it is after
    [load_dotenv()]: the value of the first binding of [name], [None] when
    there is none. *)
Definition os_getenv (environ : list (string * string)) (name : string)
    : option string :=
  match find (fun kv => fst kv =? name) environ with
  | Some kv => Some (snd kv)
  | None => None
  end.

(** Python's truth value of what [os.getenv] returns: [None] and the empty
    string are false. *)
Definition truthy (v : option string) : bool :=
  match v with
  | None => false
  | Some s => negb (s =? "")
  end.

(** How the import of the module ends: with the three settings and the agent
    as module globals, or with a [RuntimeError]. *)
Inductive startup (A : Type) : Type :=
| Started (CODEGEN_ORG_ID CODEGEN_API_TOKEN APP_API_KEY : option string) (agent : A)
| RuntimeError (message : string).
Arguments Started {A} _ _ _ _.
Arguments RuntimeError {A} _.

(** Lines 15-33.  [Agent] is the SDK's constructor
    [Agent(org_id=..., token=...)], which may raise. *)
Definition module_init {A : Type}
    (Agent : option string -> option string -> pyexn + A)
    (environ : list (string * string)) : startup A :=
  let CODEGEN_ORG_ID := os_getenv environ "CODEGEN_ORG_ID" in
  let CODEGEN_API_TOKEN := os_getenv environ "CODEGEN_API_TOKEN" in
  let APP_API_KEY := os_getenv environ "APP_API_KEY" in
  if negb (forallb truthy [CODEGEN_ORG_ID; CODEGEN_API_TOKEN; APP_API_KEY]) then
    RuntimeError ("Missing required environment variables: "
                  ++ "CODEGEN_ORG_ID, CODEGEN_API_TOKEN, APP_API_KEY")
  else
    match Agent CODEGEN_ORG_ID CODEGEN_API_TOKEN with
    | inr agent => Started CODEGEN_ORG_ID CODEGEN_API_TOKEN APP_API_KEY agent
    | inl e => RuntimeError ("Could not initialize Codegen Agent: " ++ exn_str e)
    end.

(** The setting is present and not the empty string. *)
Definition set_and_nonempty (v : option string) : Prop :=
  exists s, v = Some s /\ s <> "".

(** An SDK constructor that accepts any two settings, and one that refuses
    them. *)
Definition agent_accepts (org token : option string) : pyexn + (string * string) :=
  match org, token with
  | Some o, Some t => inr (o, t)
  | _, _ => inl (Exception "org_id and token are required")
  end.

Definition agent_refuses (org token : option string) : pyexn + (string * string) :=
  inl (Exception "invalid credentials").

Definition environ_full : list (string * string) :=
  [("CODEGEN_ORG_ID", "323"); ("CODEGEN_API_TOKEN", "sk-abc"); ("APP_API_KEY", "secret")].

Definition environ_empty_key : list (string * string) :=
  [("CODEGEN_ORG_ID", "323"); ("CODEGEN_API_TOKEN", "sk-abc"); ("APP_API_KEY", "")].

(** ** Counting the calls of an execution *)

Definition is_run (e : event) : bool :=
  match e with EvRun _ _ => true | _ => false end.

Definition is_sleep (e : event) : bool :=
  match e with EvSleep _ _ => true | _ => false end.

(** ** Basic facts *)

Lemma Qgtb_true (x y : Q) : Qgtb x y = true -> y < x.
Proof.
  unfold Qgtb. intros H. apply negb_true_iff in H.
  destruct (Qlt_le_dec y x) as [Hlt | Hle]; [exact Hlt |].
  apply Qle_bool_iff in Hle. congruence.
Qed.

Lemma Qgtb_false (x y : Q) : Qgtb x y = false -> x <= y.
Proof.
  unfold Qgtb. intros H. apply negb_false_iff in H.
  now apply Qle_bool_iff.
Qed.

Lemma respond_completed (task : Task.t) :
  Task.status task = "completed" -> respond task = Some (completed_response task).
Proof. intros H. unfold respond. rewrite H. reflexivity. Qed.

Lemma respond_failed (task : Task.t) :
  Task.status task = "failed" -> respond task = Some (failed_response task).
Proof. intros H. unfold respond. rewrite H. reflexivity. Qed.

Lemma respond_active (task : Task.t) :
  Task.status task <> "pending" ->
  Task.status task <> "completed" ->
  Task.status task <> "failed" ->
  respond task = Some (active_response task).
Proof.
  intros Hp Hc Hf. unfold respond, status_in. simpl.
  apply String.eqb_neq in Hp, Hc, Hf. rewrite Hp, Hc, Hf. reflexivity.
Qed.

(** Off the pending status, lines 121-132 always reach a [return]. *)
Lemma respond_not_pending (task : Task.t) :
  Task.status task <> "pending" ->
  respond task = Some (completed_response task) \/
  respond task = Some (failed_response task) \/
  respond task = Some (active_response task).
Proof.
  intros Hp.
  destruct (String.eqb_spec (Task.status task) "completed") as [Hc | Hc].
  - left. now apply respond_completed.
  - destruct (String.eqb_spec (Task.status task) "failed") as [Hf | Hf].
    + right; left. now apply respond_failed.
    + right; right. now apply respond_active.
Qed.

Section Shapes.

Context {W : Type} {world : World W}.

Lemma poll_unfold (fuel : nat) (start : Q) (task : Task.t) :
  poll (S fuel) start task =
  if Task.status task =? "pending" then
    t <- time_time ;;
    if Qgtb (t - start) (inject_Z timeout_seconds) then
      ret (LoopReturn (timeout_response task))
    else
      asyncio_sleep (inject_Z polling_interval_seconds) ;;;
      task' <- run_in_executor_task_refresh task ;;
      if negb (Task.status task' =? "pending") then
        ret (LoopDone task')
      else
        poll fuel start task'
  else ret (LoopDone task).
Proof. reflexivity. Qed.

(** Every run of the loop has one of the shapes of [poll_shape]. *)
Lemma poll_has_shape (fuel : nat) (start : Q) :
  forall (task : Task.t) (w : W),
    poll_shape start task (snd (poll fuel start task w)) (fst (fst (poll fuel start task w))).
Proof.
  induction fuel as [| fuel IH]; intros task w.
  - simpl. destruct (String.eqb_spec (Task.status task) "pending") as [Hp | Hp].
    + now apply shape_fuel.
    + now apply shape_done.
  - rewrite poll_unfold.
    destruct (String.eqb_spec (Task.status task) "pending") as [Hp | Hp];
      [| now apply shape_done].
    unfold bind, time_time, asyncio_sleep, run_in_executor_task_refresh, ret.
    destruct (Qgtb (now w - start) (inject_Z timeout_seconds)) eqn:Hgt.
    + simpl. apply shape_timeout; [exact Hp | now apply Qgtb_true].
    + apply Qgtb_false in Hgt.
      destruct (task_refresh task (sleep (inject_Z polling_interval_seconds) w))
        as [[e | task'] w2] eqn:Hr; simpl.
      * now apply shape_raise.
      * destruct (String.eqb_spec (Task.status task') "pending") as [Hp' | Hp']; simpl.
        -- specialize (IH task' w2).
           destruct (poll fuel start task' w2) as [[o w3] tr]. simpl in *.
           now apply shape_iter.
        -- apply shape_iter; [exact Hp | exact Hgt |]. now apply shape_done.
Qed.

(** The endpoint, with the monad unfolded. *)
Lemma run_codegen_agent_eq (fuel : nat) (request : CodegenRequest.t) (w : W) :
  run_codegen_agent fuel request w =
  match agent_run (CodegenRequest.prompt request) w with
  | (inl e, w1) =>
      (Raised (internal_error e), w1, [EvRun (CodegenRequest.prompt request) (inl e)])
  | (inr task, w1) =>
      match (if Task.status task =? "pending"
             then poll fuel (now w1) task w1
             else (Ret (LoopDone task), w1, [])) with
      | (o, w2, tr) =>
          (finish o, w2,
           EvRun (CodegenRequest.prompt request) (inr task) :: EvTime (now w1) :: tr)
      end
  end.
Proof.
  unfold run_codegen_agent, try_body, bind, run_in_executor_agent_run, time_time, ret.
  destruct (agent_run (CodegenRequest.prompt request) w) as [[e | task] w1]; simpl;
    [reflexivity |].
  destruct (Task.status task =? "pending").
  - destruct (poll fuel (now w1) task w1) as [[o w2] tr].
    destruct o as [[r | task'] | e |]; simpl; rewrite ?app_nil_r; reflexivity.
  - reflexivity.
Qed.

(** Every run of the endpoint has one of the shapes of [run_shape]. *)
Lemma run_has_shape (fuel : nat) (request : CodegenRequest.t) (w : W) :
  run_shape (trace (run_codegen_agent fuel request w))
            (answer (run_codegen_agent fuel request w)).
Proof.
  rewrite run_codegen_agent_eq. unfold trace, answer.
  destruct (agent_run (CodegenRequest.prompt request) w) as [[e | task] w1]; simpl.
  - apply run_submit_raised.
  - destruct (String.eqb_spec (Task.status task) "pending") as [Hp | Hp].
    + pose proof (poll_has_shape fuel (now w1) task w1) as Hs.
      destruct (poll fuel (now w1) task w1) as [[o w2] tr]. simpl in *.
      now apply run_polled.
    + simpl. apply (run_polled _ _ _ _ (Ret (LoopDone task))). now apply shape_done.
Qed.

End Shapes.

(** ** What the shapes say *)

Lemma shape_not_pending start task tr o :
  poll_shape start task tr o ->
  Task.status task <> "pending" ->
  tr = [] /\ o = Ret (LoopDone task).
Proof. intros H Hp. destruct H; [split; reflexivity | contradiction ..]. Qed.

(** Membership in a list that computes. *)
Ltac find_in := vm_compute; repeat (first [left; reflexivity | right]).

(** Case analysis on membership in a list whose first events are known. *)
Ltac in_head H :=
  simpl in H;
  repeat match type of H with
         | _ \/ _ => destruct H as [H | H]; [try discriminate H |]
         end.

(** A [refresh] that finds the task off the pending status ends the loop:
    it is the last event, and the loop hands that task on. *)
Lemma shape_left start task tr o :
  poll_shape start task tr o ->
  forall at_ task',
    In (EvRefresh at_ (inr task')) tr ->
    Task.status task' <> "pending" ->
    o = Ret (LoopDone task') /\ exists pre, tr = (pre ++ [EvRefresh at_ (inr task')])%list.
Proof.
  induction 1 as [task Hp | task Hp | task t Hp Ht | task t a e Hp Ht
                 | task t a task1 tr o Hp Ht Hs IH];
    intros at_ task' Hin Hnp.
  - destruct Hin.
  - destruct Hin.
  - in_head Hin. destruct Hin.
  - in_head Hin. destruct Hin.
  - in_head Hin.
    + injection Hin as -> ->.
      destruct (shape_not_pending _ _ _ _ Hs Hnp) as [-> ->].
      split; [reflexivity |].
      now exists [EvTime t; EvSleep t (inject_Z polling_interval_seconds)].
    + destruct (IH _ _ Hin Hnp) as [-> [pre ->]].
      split; [reflexivity |].
      now exists (EvTime t :: EvSleep t (inject_Z polling_interval_seconds)
                    :: EvRefresh a (inr task1) :: pre).
Qed.

(** A [refresh] that raises ends the loop with that exception. *)
Lemma shape_raised start task tr o :
  poll_shape start task tr o ->
  forall at_ e,
    In (EvRefresh at_ (inl e)) tr ->
    o = Raise e /\ exists pre, tr = (pre ++ [EvRefresh at_ (inl e)])%list.
Proof.
  induction 1 as [task Hp | task Hp | task t Hp Ht | task t a e0 Hp Ht
                 | task t a task1 tr o Hp Ht Hs IH];
    intros at_ e Hin.
  - destruct Hin.
  - destruct Hin.
  - in_head Hin. destruct Hin.
  - in_head Hin; [| destruct Hin].
    injection Hin as -> ->. split; [reflexivity |].
    now exists [EvTime t; EvSleep t (inject_Z polling_interval_seconds)].
  - in_head Hin.
    destruct (IH _ _ Hin) as [-> [pre ->]].
    split; [reflexivity |].
    now exists (EvTime t :: EvSleep t (inject_Z polling_interval_seconds)
                  :: EvRefresh a (inr task1) :: pre).
Qed.

(** A clock reading past the limit ends the loop with the timeout answer for
    the task as it is then held. *)
Lemma shape_expired start task tr o :
  poll_shape start task tr o ->
  forall t,
    In (EvTime t) tr ->
    inject_Z timeout_seconds < t - start ->
    exists held,
      held_after (Some task) tr = Some held /\
      o = Ret (LoopReturn (timeout_response held)) /\
      exists pre, tr = (pre ++ [EvTime t])%list.
Proof.
  induction 1 as [task Hp | task Hp | task t0 Hp Ht | task t0 a e0 Hp Ht
                 | task t0 a task1 tr o Hp Ht Hs IH];
    intros t Hin Hlate.
  - destruct Hin.
  - destruct Hin.
  - in_head Hin; [| destruct Hin]. injection Hin as ->.
    exists task. repeat split. now exists [].
  - in_head Hin; [| destruct Hin]. injection Hin as ->.
    exfalso. exact (Qlt_not_le _ _ Hlate Ht).
  - in_head Hin.
    + injection Hin as ->. exfalso. exact (Qlt_not_le _ _ Hlate Ht).
    + destruct (IH _ Hin Hlate) as [held [Hh [-> [pre ->]]]].
      exists held. simpl. repeat split; [exact Hh |].
      now exists (EvTime t0 :: EvSleep t0 (inject_Z polling_interval_seconds)
                    :: EvRefresh a (inr task1) :: pre).
Qed.

(** The loop never calls [agent.run]. *)
Lemma shape_no_run start task tr o :
  poll_shape start task tr o -> forall p r, ~ In (EvRun p r) tr.
Proof.
  induction 1 as [task Hp | task Hp | task t0 Hp Ht | task t0 a e0 Hp Ht
                 | task t0 a task1 tr o Hp Ht Hs IH];
    intros p r Hin; in_head Hin; try (destruct Hin; fail).
  exact (IH _ _ Hin).
Qed.

(** When the endpoint returns, it returns a response, built from the task
    as held at the end: the timeout answer, or the answer of lines 121-132
    for a task that is no longer pending. *)
Lemma shape_returned start task tr o x :
  poll_shape start task tr o ->
  finish o = Returned x ->
  exists held r,
    held_after (Some task) tr = Some held /\
    x = Some r /\
    (r = timeout_response held \/
     Task.status held <> "pending" /\ respond held = Some r).
Proof.
  induction 1 as [task Hp | task Hp | task t0 Hp Ht | task t0 a e0 Hp Ht
                 | task t0 a task1 tr o Hp Ht Hs IH];
    intros Hfin; simpl in Hfin; try discriminate Hfin.
  - injection Hfin as <-.
    destruct (respond_not_pending task Hp) as [Hr | [Hr | Hr]];
      eexists task, _; (split; [reflexivity |]); (split; [exact Hr |]);
      right; (split; [exact Hp | exact Hr]).
  - injection Hfin as <-. exists task, (timeout_response task).
    repeat split. now left.
  - destruct (IH Hfin) as [held [r [Hh Hr]]]. now exists held, r.
Qed.

(** Inside the loop every [refresh] comes right after a sleep of the polling
    interval. *)
Lemma shape_refresh_after_sleep start task tr o :
  poll_shape start task tr o ->
  forall pre at_ r post,
    tr = (pre ++ EvRefresh at_ r :: post)%list ->
    exists pre' t,
      pre = (pre' ++ [EvSleep t (inject_Z polling_interval_seconds)])%list.
Proof.
  induction 1 as [task Hp | task Hp | task t0 Hp Ht | task t0 a e0 Hp Ht
                 | task t0 a task1 tr o Hp Ht Hs IH];
    intros pre at_ r post Heq.
  - destruct pre; discriminate Heq.
  - destruct pre; discriminate Heq.
  - destruct pre as [| x [| y pre]]; discriminate Heq.
  - destruct pre as [| x [| y [| z [| u pre]]]]; try discriminate Heq.
    injection Heq as <- <- _ _ _. now exists [EvTime t0], t0.
  - destruct pre as [| x [| y [| z pre]]]; try discriminate Heq.
    + injection Heq as <- <- _ _ _. now exists [EvTime t0], t0.
    + injection Heq as <- <- <- Heq.
      destruct (IH _ _ _ _ Heq) as [pre' [t ->]].
      now exists (EvTime t0 :: EvSleep t0 (inject_Z polling_interval_seconds)
                    :: EvRefresh a (inr task1) :: pre'), t.
Qed.

(** Inside the loop every sleep is of the polling interval, comes right
    after a clock reading that is within the limit, and is begun with the
    held task pending. *)
Lemma shape_sleep_guard start task tr o :
  poll_shape start task tr o ->
  forall pre at_ d post,
    tr = (pre ++ EvSleep at_ d :: post)%list ->
    d = inject_Z polling_interval_seconds /\
    at_ - start <= inject_Z timeout_seconds /\
    (exists pre', pre = (pre' ++ [EvTime at_])%list) /\
    exists held, held_after (Some task) pre = Some held /\
                 Task.status held = "pending".
Proof.
  induction 1 as [task Hp | task Hp | task t0 Hp Ht | task t0 a e0 Hp Ht
                 | task t0 a task1 tr o Hp Ht Hs IH];
    intros pre at_ d post Heq.
  - destruct pre; discriminate Heq.
  - destruct pre; discriminate Heq.
  - destruct pre as [| x [| y pre]]; discriminate Heq.
  - destruct pre as [| x [| y [| z [| u pre]]]]; try discriminate Heq.
    injection Heq as <- <- <- _.
    repeat split; [exact Ht | now exists [] | now exists task].
  - destruct pre as [| x [| y [| z pre]]]; try discriminate Heq.
    + injection Heq as <- <- <- _.
      repeat split; [exact Ht | now exists [] | now exists task].
    + injection Heq as <- <- <- Heq.
      destruct (IH _ _ _ _ Heq) as [Hd [Hat [[pre' ->] [held [Hh Hpend]]]]].
      repeat split; [exact Hd | exact Hat | | now exists held].
      now exists (EvTime t0 :: EvSleep t0 (inject_Z polling_interval_seconds)
                    :: EvRefresh a (inr task1) :: pre').
Qed.

(** ** The pace of the loop on a clock that [sleep] advances *)

Section Pace.

Context {W : Type} {world : World W}.

(** [asyncio.sleep(d)] lasts at least [d]. *)
Hypothesis sleep_lasts : forall d w, now w + d <= now (sleep d w).

(** The clock does not run backwards during a [refresh]. *)
Hypothesis refresh_not_backwards :
  forall task w, now w <= now (snd (task_refresh task w)).

Lemma poll_refresh_spaced (fuel : nat) (start : Q) :
  forall (task : Task.t) (w : W),
    Forall (fun a => now w + inject_Z polling_interval_seconds <= a)
           (refresh_times (snd (poll fuel start task w))) /\
    ForallOrdPairs (fun a b => a + inject_Z polling_interval_seconds <= b)
           (refresh_times (snd (poll fuel start task w))).
Proof.
  induction fuel as [| fuel IH]; intros task w.
  - simpl. destruct (Task.status task =? "pending"); simpl; split; constructor.
  - rewrite poll_unfold.
    destruct (Task.status task =? "pending"); [| simpl; split; constructor].
    unfold bind, time_time, asyncio_sleep, run_in_executor_task_refresh, ret.
    destruct (Qgtb (now w - start) (inject_Z timeout_seconds));
      [simpl; split; constructor |].
    pose proof (sleep_lasts (inject_Z polling_interval_seconds) w) as Hs.
    pose proof (refresh_not_backwards task
                  (sleep (inject_Z polling_interval_seconds) w)) as Hr.
    destruct (task_refresh task (sleep (inject_Z polling_interval_seconds) w))
      as [[e | task'] w2]; simpl in *.
    + split; repeat constructor; exact Hs.
    + assert (Hrest :
        Forall (fun a => now w2 + inject_Z polling_interval_seconds <= a)
               (refresh_times (snd (poll fuel start task' w2))) /\
        ForallOrdPairs (fun a b => a + inject_Z polling_interval_seconds <= b)
               (refresh_times (snd (poll fuel start task' w2)))) by apply IH.
      destruct Hrest as [Hall Hpairs].
      assert (Hlater :
        Forall (fun a => now (sleep (inject_Z polling_interval_seconds) w)
                         + inject_Z polling_interval_seconds <= a)
               (refresh_times (snd (poll fuel start task' w2)))).
      { eapply Forall_impl; [| exact Hall]. intros a Ha. simpl in Ha.
        eapply Qle_trans; [| exact Ha].
        apply Qplus_le_compat; [exact Hr | apply Qle_refl]. }
      destruct (negb (Task.status task' =? "pending")); simpl.
      * split; repeat constructor; exact Hs.
      * destruct (poll fuel start task' w2) as [[o w3] tr]. simpl in *.
        split.
        -- constructor; [exact Hs |].
           eapply Forall_impl; [| exact Hlater]. intros a Ha. simpl in Ha.
           eapply Qle_trans; [exact Hs |].
           eapply Qle_trans; [| exact Ha].
           rewrite <- (Qplus_0_r (now (sleep _ w))) at 1.
           apply Qplus_le_compat; [apply Qle_refl | discriminate].
        -- constructor; assumption.
Qed.

End Pace.

(** ** The same facts for a whole run of the endpoint *)

Lemma run_left tr res :
  run_shape tr res ->
  forall task,
    observed task tr ->
    Task.status task <> "pending" ->
    res = Returned (respond task).
Proof.
  destruct 1 as [p e | p t0 start ptr o Hp]; intros task [[q Hin] | [a Hin]] Hnp;
    in_head Hin; try (destruct Hin; fail).
  - injection Hin as _ ->.
    destruct (shape_not_pending _ _ _ _ Hp Hnp) as [_ ->]. reflexivity.
  - destruct (shape_no_run _ _ _ _ Hp _ _ Hin).
  - destruct (shape_left _ _ _ _ Hp _ _ Hin Hnp) as [-> _]. reflexivity.
Qed.

Lemma run_left_last tr res :
  run_shape tr res ->
  forall at_ task,
    In (EvRefresh at_ (inr task)) tr ->
    Task.status task <> "pending" ->
    exists pre, tr = (pre ++ [EvRefresh at_ (inr task)])%list.
Proof.
  destruct 1 as [p e | p t0 start ptr o Hp]; intros at_ task Hin Hnp;
    in_head Hin; try (destruct Hin; fail).
  destruct (shape_left _ _ _ _ Hp _ _ Hin Hnp) as [_ [pre ->]].
  now exists (EvRun p (inr t0) :: EvTime start :: pre).
Qed.

Lemma run_submit_raised_alone tr res :
  run_shape tr res ->
  forall p e, In (EvRun p (inl e)) tr ->
    tr = [EvRun p (inl e)] /\ res = Raised (internal_error e).
Proof.
  destruct 1 as [p0 e0 | p0 t0 start ptr o Hp]; intros p e Hin; in_head Hin.
  - injection Hin as -> ->. now split.
  - destruct Hin.
  - destruct (shape_no_run _ _ _ _ Hp _ _ Hin).
Qed.

Lemma run_refresh_raised_last tr res :
  run_shape tr res ->
  forall at_ e, In (EvRefresh at_ (inl e)) tr ->
    (exists pre, tr = (pre ++ [EvRefresh at_ (inl e)])%list) /\
    res = Raised (internal_error e).
Proof.
  destruct 1 as [p0 e0 | p0 t0 start ptr o Hp]; intros at_ e Hin;
    in_head Hin; try (destruct Hin; fail).
  destruct (shape_raised _ _ _ _ Hp _ _ Hin) as [-> [pre ->]].
  split; [| reflexivity].
  now exists (EvRun p0 (inr t0) :: EvTime start :: pre).
Qed.

Lemma not_late_at_start (start : Q) :
  ~ inject_Z timeout_seconds < start - start.
Proof.
  intros H. apply (Qlt_not_le _ _ H).
  setoid_replace (start - start) with 0 by ring. discriminate.
Qed.

Lemma run_expired tr res :
  run_shape tr res ->
  forall start t,
    start_time_of tr = Some start ->
    In (EvTime t) tr ->
    inject_Z timeout_seconds < t - start ->
    exists held,
      held_task tr = Some held /\
      res = Returned (Some (timeout_response held)) /\
      exists pre, tr = (pre ++ [EvTime t])%list.
Proof.
  destruct 1 as [p0 e0 | p0 t0 start0 ptr o Hp]; intros start t Hstart Hin Hlate;
    simpl in Hstart; try discriminate Hstart.
  injection Hstart as <-. in_head Hin.
  - injection Hin as <-. destruct (not_late_at_start _ Hlate).
  - destruct (shape_expired _ _ _ _ Hp _ Hin Hlate) as [held [Hh [-> [pre ->]]]].
    exists held. repeat split; [exact Hh |].
    now exists (EvRun p0 (inr t0) :: EvTime start0 :: pre).
Qed.

Lemma run_returned tr res :
  run_shape tr res ->
  forall x, res = Returned x ->
    exists held r,
      held_task tr = Some held /\
      x = Some r /\
      (r = timeout_response held \/
       Task.status held <> "pending" /\ respond held = Some r).
Proof.
  destruct 1 as [p0 e0 | p0 t0 start0 ptr o Hp]; intros x Hres;
    [discriminate Hres |].
  exact (shape_returned _ _ _ _ _ Hp Hres).
Qed.

(** What [agent.run] returned is the first event of the run. *)
Lemma submit_is_recorded {W : Type} {world : World W}
    (fuel : nat) (request : CodegenRequest.t) (w : W) :
  exists tr,
    trace (run_codegen_agent fuel request w) =
    EvRun (CodegenRequest.prompt request)
          (fst (agent_run (CodegenRequest.prompt request) w)) :: tr.
Proof.
  rewrite run_codegen_agent_eq. unfold trace.
  destruct (agent_run (CodegenRequest.prompt request) w) as [[e | task] w1]; simpl.
  - now exists [].
  - destruct (if Task.status task =? "pending"
              then poll fuel (now w1) task w1
              else (Ret (LoopDone task), w1, [])) as [[o w2] tr].
    now exists (EvTime (now w1) :: tr).
Qed.

(** Each answer of lines 121-132 carries the held task's id and at most one
    of [result] and [error]. *)
Lemma respond_fields task r :
  respond task = Some r ->
  CodegenResponse.task_id r = Some (py_str (getattr_id task)) /\
  (CodegenResponse.result r = None \/ CodegenResponse.error r = None).
Proof.
  unfold respond. intros H.
  destruct (negb (status_in (Task.status task) ["pending"; "completed"; "failed"]));
    [| destruct (Task.status task =? "completed");
       [| destruct (Task.status task =? "failed"); [| discriminate H]]];
    injection H as <-; simpl; auto.
Qed.

Lemma all_pendingb_sound (tr : list event) :
  all_pendingb tr = true -> all_pending tr.
Proof.
  unfold all_pendingb, all_pending. intros H. apply Forall_forall. intros e He.
  rewrite forallb_forall in H. specialize (H e He).
  destruct e as [p r | t | a d | a [e | t]]; try exact I.
  - discriminate H.
  - now apply String.eqb_eq.
Qed.

(** ** The credential gate *)

(** C6. The gate succeeds only when the scheme is exactly "Bearer" and the
    credential is exactly the configured secret.  A request with another
    scheme is answered 403, and one with the right scheme and another
    credential 401; in both cases the endpoint function does not run: the
    world is untouched and no call to it is recorded. *)
Theorem credential_gate (APP_API_KEY : string) (c : HTTPAuthorizationCredentials) :
  (forall k, verify_api_key APP_API_KEY c = inr k <->
             scheme c = "Bearer" /\ credentials c = APP_API_KEY /\ k = credentials c) /\
  (scheme c <> "Bearer" ->
   forall (W : Type) (world : World W) fuel request (w : W),
     post_run_agent APP_API_KEY fuel c request w =
     (Raised (mkHTTPException 403 "Invalid authentication scheme"), w, [])) /\
  (scheme c = "Bearer" -> credentials c <> APP_API_KEY ->
   forall (W : Type) (world : World W) fuel request (w : W),
     post_run_agent APP_API_KEY fuel c request w =
     (Raised (mkHTTPException 401 "Invalid API Key"), w, [])).
Proof.
  unfold post_run_agent, verify_api_key.
  destruct (String.eqb_spec (scheme c) "Bearer") as [Hs | Hs];
    destruct (String.eqb_spec (credentials c) APP_API_KEY) as [Hc | Hc]; simpl;
    (split; [intros k; split; [intros H | intros (H1 & H2 & H3)] | split]);
    try discriminate; try contradiction; try reflexivity.
  - injection H as <-. auto.
  - now subst k.
Qed.

Lemma credential_gate_witness :
  post_run_agent "secret" 5 (mkCredentials "Basic" "xyz") request_hi world_completes =
    (Raised (mkHTTPException 403 "Invalid authentication scheme"), world_completes, []) /\
  post_run_agent "secret" 5 (mkCredentials "Bearer" "wrong-token") request_hi world_completes =
    (Raised (mkHTTPException 401 "Invalid API Key"), world_completes, []) /\
  post_run_agent "secret" 5 (mkCredentials "bearer" "secret") request_hi world_completes =
    (Raised (mkHTTPException 403 "Invalid authentication scheme"), world_completes, []) /\
  verify_api_key "secret" (mkCredentials "Bearer" "secret") = inr "secret".
Proof.
  split; [| split; [| split]].
  - apply (credential_gate "secret" (mkCredentials "Basic" "xyz")). discriminate.
  - apply (credential_gate "secret" (mkCredentials "Bearer" "wrong-token"));
      [reflexivity | discriminate].
  - apply (credential_gate "secret" (mkCredentials "bearer" "secret")). discriminate.
  - apply (credential_gate "secret" (mkCredentials "Bearer" "secret")).
    repeat split.
Defined.

(** C10. The scheme is checked before the credential: with a scheme other
    than "Bearer" and a credential other than the secret, the rejection is
    the 403 of the scheme check, not the 401 of the credential check. *)
Theorem scheme_checked_first (APP_API_KEY : string) (c : HTTPAuthorizationCredentials) :
  scheme c <> "Bearer" ->
  credentials c <> APP_API_KEY ->
  verify_api_key APP_API_KEY c =
    inl (mkHTTPException HTTP_403_FORBIDDEN "Invalid authentication scheme") /\
  forall d, verify_api_key APP_API_KEY c <> inl (mkHTTPException HTTP_401_UNAUTHORIZED d).
Proof.
  intros Hs _. unfold verify_api_key.
  apply String.eqb_neq in Hs. rewrite Hs. simpl.
  split; [reflexivity | intros d H; discriminate H].
Qed.

Lemma scheme_checked_first_witness :
  verify_api_key "secret" (mkCredentials "Basic" "xyz") =
    inl (mkHTTPException 403 "Invalid authentication scheme") /\
  forall d, verify_api_key "secret" (mkCredentials "Basic" "xyz")
            <> inl (mkHTTPException 401 d).
Proof.
  apply (scheme_checked_first "secret" (mkCredentials "Basic" "xyz")); discriminate.
Defined.

(** ** The endpoint's answers *)

(** C1. For every prompt: when the task is completed right after submit, or
    a refresh of the polling loop returns it completed, the handler returns
    a response with status "completed", the task's result as text as its
    result, and no error. *)
Theorem completed_task_is_reported {W : Type} {world : World W}
    (fuel : nat) (request : CodegenRequest.t) (w : W) (task : Task.t) :
  observed task (trace (run_codegen_agent fuel request w)) ->
  Task.status task = "completed" ->
  exists r,
    answer (run_codegen_agent fuel request w) = Returned (Some r) /\
    CodegenResponse.status r = "completed" /\
    CodegenResponse.result r = Some (py_str (Task.result task)) /\
    CodegenResponse.error r = None.
Proof.
  intros Hobs Hst.
  assert (Hnp : Task.status task <> "pending") by (rewrite Hst; discriminate).
  rewrite (run_left _ _ (run_has_shape fuel request w) task Hobs Hnp).
  rewrite (respond_completed task Hst).
  exists (completed_response task). simpl. rewrite Hst. repeat split.
Qed.

Lemma completed_task_is_reported_witness :
  observed task_completed (trace (run_codegen_agent 5 request_hi world_completes)) /\
  exists r,
    answer (run_codegen_agent 5 request_hi world_completes) = Returned (Some r) /\
    CodegenResponse.status r = "completed" /\
    CodegenResponse.result r = Some "done" /\
    CodegenResponse.error r = None.
Proof.
  assert (Hobs : observed task_completed
                   (trace (run_codegen_agent 5 request_hi world_completes))).
  { right. exists 6. find_in. }
  split; [exact Hobs |].
  exact (completed_task_is_reported 5 request_hi world_completes task_completed
           Hobs eq_refl).
Defined.

(** C2. For every prompt: when the task is failed right after submit, or a
    refresh of the polling loop returns it failed, the handler returns a
    response with status "failed", whose error is the task's error message,
    or the literal "Codegen task failed." when the task has none, and with
    no result. *)
Theorem failed_task_is_reported {W : Type} {world : World W}
    (fuel : nat) (request : CodegenRequest.t) (w : W) (task : Task.t) :
  observed task (trace (run_codegen_agent fuel request w)) ->
  Task.status task = "failed" ->
  exists r,
    answer (run_codegen_agent fuel request w) = Returned (Some r) /\
    CodegenResponse.status r = "failed" /\
    CodegenResponse.error r =
      Some (match Task.error_message task with
            | Some m => m
            | None => "Codegen task failed."
            end) /\
    CodegenResponse.result r = None.
Proof.
  intros Hobs Hst.
  assert (Hnp : Task.status task <> "pending") by (rewrite Hst; discriminate).
  rewrite (run_left _ _ (run_has_shape fuel request w) task Hobs Hnp).
  rewrite (respond_failed task Hst).
  exists (failed_response task). simpl. rewrite Hst. repeat split.
Qed.

Lemma failed_task_is_reported_witness :
  observed task_failed (trace (run_codegen_agent 5 request_hi world_fails)) /\
  exists r,
    answer (run_codegen_agent 5 request_hi world_fails) = Returned (Some r) /\
    CodegenResponse.status r = "failed" /\
    CodegenResponse.error r = Some "Codegen task failed." /\
    CodegenResponse.result r = None.
Proof.
  assert (Hobs : observed task_failed
                   (trace (run_codegen_agent 5 request_hi world_fails))).
  { right. exists 3. find_in. }
  split; [exact Hobs |].
  exact (failed_task_is_reported 5 request_hi world_fails task_failed Hobs eq_refl).
Defined.

(** C3, as amended.  When the loop's timeout check (line 106, reached only
    with the task pending) reads the clock more than 120 seconds after
    [start_time], the handler stops there and returns a response with status
    "timeout", the error "Task timed out after 120 seconds." and no
    result. *)
Theorem late_check_is_a_timeout {W : Type} {world : World W}
    (fuel : nat) (request : CodegenRequest.t) (w : W) (start t : Q) :
  start_time_of (trace (run_codegen_agent fuel request w)) = Some start ->
  In (EvTime t) (trace (run_codegen_agent fuel request w)) ->
  (120 < t - start)%Q ->
  (exists pre, trace (run_codegen_agent fuel request w) = (pre ++ [EvTime t])%list) /\
  exists r,
    answer (run_codegen_agent fuel request w) = Returned (Some r) /\
    CodegenResponse.status r = "timeout" /\
    CodegenResponse.error r = Some "Task timed out after 120 seconds." /\
    CodegenResponse.result r = None.
Proof.
  intros Hstart Hin Hlate.
  destruct (run_expired _ _ (run_has_shape fuel request w) start t Hstart Hin Hlate)
    as [held [_ [Hres Hlast]]].
  split; [exact Hlast |].
  exists (timeout_response held). rewrite Hres. repeat split.
Qed.

Lemma late_check_is_a_timeout_witness :
  start_time_of (trace (run_codegen_agent 42 request_hi world_stuck)) = Some 0 /\
  In (EvTime 123) (trace (run_codegen_agent 42 request_hi world_stuck)) /\
  (120 < 123 - 0)%Q /\
  exists r,
    answer (run_codegen_agent 42 request_hi world_stuck) = Returned (Some r) /\
    CodegenResponse.status r = "timeout" /\
    CodegenResponse.error r = Some "Task timed out after 120 seconds." /\
    CodegenResponse.result r = None.
Proof.
  assert (Hstart : start_time_of (trace (run_codegen_agent 42 request_hi world_stuck))
                   = Some 0) by reflexivity.
  assert (Hin : In (EvTime 123) (trace (run_codegen_agent 42 request_hi world_stuck)))
    by find_in.
  assert (Hlate : (120 < 123 - 0)%Q) by reflexivity.
  split; [exact Hstart | split; [exact Hin | split; [exact Hlate |]]].
  exact (proj2 (late_check_is_a_timeout 42 request_hi world_stuck 0 123
                  Hstart Hin Hlate)).
Defined.

(** C3, as stated, fails.  With sleeps of exactly three seconds and
    refreshes that take no time, the task is pending after submit and at the
    forty refreshes issued 3, 6, ..., 120 seconds after [start_time]; the
    check at 120 seconds passes ([120 > 120] is false), and the refresh
    issued at 123 seconds returns the task completed.  The status stayed
    pending for more than 120 seconds, and the answer is the completed one,
    not a timeout. *)
Lemma late_completion_is_not_a_timeout :
  pending_for_longer_than 120 (trace (run_codegen_agent 100 request_hi world_late)) /\
  (exists pre,
     trace (run_codegen_agent 100 request_hi world_late) =
     (pre ++ [EvTime 120; EvSleep 120 3; EvRefresh 123 (inr task_completed)])%list) /\
  answer (run_codegen_agent 100 request_hi world_late) =
    Returned (Some (CodegenResponse.mk "completed" (Some "done") None (Some "42"))) /\
  ~ exists r,
      answer (run_codegen_agent 100 request_hi world_late) = Returned (Some r) /\
      CodegenResponse.status r = "timeout".
Proof.
  assert (Hanswer :
    answer (run_codegen_agent 100 request_hi world_late) =
    Returned (Some (CodegenResponse.mk "completed" (Some "done") None (Some "42"))))
    by (vm_compute; reflexivity).
  split; [| split; [| split]].
  - exists "hi", task_pending, 0,
      (firstn 122 (skipn 2 (trace (run_codegen_agent 100 request_hi world_late)))),
      123, (inr task_completed), [].
    split; [vm_compute; reflexivity |].
    split; [reflexivity |].
    split; [| reflexivity].
    apply all_pendingb_sound. vm_compute. reflexivity.
  - exists (firstn 122 (trace (run_codegen_agent 100 request_hi world_late))).
    vm_compute. reflexivity.
  - exact Hanswer.
  - intros [r [Hr Hs]]. rewrite Hanswer in Hr. injection Hr as <-. discriminate Hs.
Qed.

(** C4. When a refresh returns the task with a status other than "pending",
    "completed" and "failed", that refresh is the last event of the request:
    the handler makes no further call and returns a response whose status is
    the task's status as it is, whose result is the text "Task ID: <id> is
    now active.", and which has no error. *)
Theorem active_task_ends_the_request {W : Type} {world : World W}
    (fuel : nat) (request : CodegenRequest.t) (w : W) (at_ : Q) (task : Task.t) :
  In (EvRefresh at_ (inr task)) (trace (run_codegen_agent fuel request w)) ->
  Task.status task <> "pending" ->
  Task.status task <> "completed" ->
  Task.status task <> "failed" ->
  (exists pre, trace (run_codegen_agent fuel request w)
               = (pre ++ [EvRefresh at_ (inr task)])%list) /\
  exists r,
    answer (run_codegen_agent fuel request w) = Returned (Some r) /\
    CodegenResponse.status r = Task.status task /\
    CodegenResponse.result r =
      Some ("Task ID: " ++ py_str (getattr_id task) ++ " is now active.") /\
    CodegenResponse.error r = None.
Proof.
  intros Hin Hp Hc Hf.
  pose proof (run_has_shape fuel request w) as Hs.
  split.
  - exact (run_left_last _ _ Hs at_ task Hin Hp).
  - assert (Hobs : observed task (trace (run_codegen_agent fuel request w)))
      by (right; now exists at_).
    rewrite (run_left _ _ Hs task Hobs Hp), (respond_active task Hp Hc Hf).
    exists (active_response task). repeat split.
Qed.

Lemma active_task_ends_the_request_witness :
  trace (run_codegen_agent 5 request_hi world_runs) =
    [EvRun "hi" (inr task_pending); EvTime 0;
     EvTime 0; EvSleep 0 3; EvRefresh 3 (inr task_pending);
     EvTime 3; EvSleep 3 3; EvRefresh 6 (inr task_running)] /\
  exists r,
    answer (run_codegen_agent 5 request_hi world_runs) = Returned (Some r) /\
    CodegenResponse.status r = "running" /\
    CodegenResponse.result r = Some "Task ID: 42 is now active." /\
    CodegenResponse.error r = None.
Proof.
  split; [reflexivity |].
  apply (active_task_ends_the_request 5 request_hi world_runs 6 task_running);
    [find_in | discriminate ..].
Defined.

(** ** The pace of the polling loop *)

Lemma run_refresh_after_sleep tr res :
  run_shape tr res ->
  forall pre at_ r post,
    tr = (pre ++ EvRefresh at_ r :: post)%list ->
    exists pre' t, pre = (pre' ++ [EvSleep t 3])%list.
Proof.
  destruct 1 as [p0 e0 | p0 t0 start0 ptr o Hp]; intros pre at_ r post Heq.
  - destruct pre as [| x [| y pre]]; discriminate Heq.
  - destruct pre as [| x [| y pre]]; try discriminate Heq.
    injection Heq as <- <- Heq.
    destruct (shape_refresh_after_sleep _ _ _ _ Hp _ _ _ _ Heq) as [pre' [t ->]].
    now exists (EvRun p0 (inr t0) :: EvTime start0 :: pre'), t.
Qed.

Lemma run_sleep_guard tr res :
  run_shape tr res ->
  forall pre at_ d post,
    tr = (pre ++ EvSleep at_ d :: post)%list ->
    d = 3 /\
    (exists pre', pre = (pre' ++ [EvTime at_])%list) /\
    (exists held, held_task pre = Some held /\ Task.status held = "pending") /\
    exists start, start_time_of tr = Some start /\ at_ - start <= 120.
Proof.
  destruct 1 as [p0 e0 | p0 t0 start0 ptr o Hp]; intros pre at_ d post Heq.
  - destruct pre as [| x [| y pre]]; discriminate Heq.
  - destruct pre as [| x [| y pre]]; try discriminate Heq.
    injection Heq as <- <- Heq.
    destruct (shape_sleep_guard _ _ _ _ Hp _ _ _ _ Heq)
      as [Hd [Hat [[pre' ->] [held [Hh Hpend]]]]].
    repeat split.
    + exact Hd.
    + now exists (EvRun p0 (inr t0) :: EvTime start0 :: pre').
    + now exists held.
    + now exists start0.
Qed.

(** C5. In every execution: each [refresh] comes right after a sleep of the
    3-second polling interval; hence, on a clock that a sleep of [d] seconds
    advances by at least [d] and that does not run backwards during a
    refresh, any two [refresh] calls are at least 3 seconds apart; and each
    iteration (each sleep) is begun right after a reading of the clock that
    is at most 120 seconds past [start_time], with the held task pending. *)
Theorem polling_is_paced {W : Type} {world : World W}
    (fuel : nat) (request : CodegenRequest.t) (w : W) :
  (forall pre at_ r post,
     trace (run_codegen_agent fuel request w) = (pre ++ EvRefresh at_ r :: post)%list ->
     exists pre' t, pre = (pre' ++ [EvSleep t 3])%list) /\
  ((forall d (w' : W), now w' + d <= now (sleep d w')) ->
   (forall task (w' : W), now w' <= now (snd (task_refresh task w'))) ->
   ForallOrdPairs (fun a b => a + 3 <= b)
     (refresh_times (trace (run_codegen_agent fuel request w)))) /\
  (forall pre at_ d post,
     trace (run_codegen_agent fuel request w) = (pre ++ EvSleep at_ d :: post)%list ->
     d = 3 /\
     (exists pre', pre = (pre' ++ [EvTime at_])%list) /\
     (exists held, held_task pre = Some held /\ Task.status held = "pending") /\
     exists start,
       start_time_of (trace (run_codegen_agent fuel request w)) = Some start /\
       at_ - start <= 120).
Proof.
  pose proof (run_has_shape fuel request w) as Hs.
  split; [exact (run_refresh_after_sleep _ _ Hs) |].
  split; [| exact (run_sleep_guard _ _ Hs)].
  intros Hsleep Hrefresh. clear Hs.
  rewrite run_codegen_agent_eq. unfold trace.
  destruct (agent_run (CodegenRequest.prompt request) w) as [[e | task] w1]; simpl.
  - constructor.
  - destruct (Task.status task =? "pending").
    + pose proof (poll_refresh_spaced Hsleep Hrefresh fuel (now w1) task w1) as [_ Hp].
      destruct (poll fuel (now w1) task w1) as [[o w2] tr]. exact Hp.
    + constructor.
Qed.

Lemma script_sleep_lasts (d : Q) (w : Script.t) : now w + d <= now (sleep d w).
Proof. apply Qle_refl. Qed.

Lemma script_refresh_not_backwards (task : Task.t) (w : Script.t) :
  now w <= now (snd (task_refresh task w)).
Proof. simpl. unfold Script.refresh. destruct (Script.refreshes w); apply Qle_refl. Qed.

Lemma polling_is_paced_witness :
  trace (run_codegen_agent 5 request_hi world_completes) =
    [EvRun "hi" (inr task_pending); EvTime 0;
     EvTime 0; EvSleep 0 3; EvRefresh 3 (inr task_pending);
     EvTime 3; EvSleep 3 3; EvRefresh 6 (inr task_completed)] /\
  ForallOrdPairs (fun a b => a + 3 <= b)
    (refresh_times (trace (run_codegen_agent 5 request_hi world_completes))).
Proof.
  split; [reflexivity |].
  apply (polling_is_paced 5 request_hi world_completes).
  - exact script_sleep_lasts.
  - exact script_refresh_not_backwards.
Defined.

(** ** Failures of the remote calls *)

(** C7. When [agent.run] raises, the handler answers 500 with the text of
    the exception in the detail, and the call to [agent.run] is the only
    event of the request: the polling loop does not run.  When a [refresh]
    raises, the handler answers 500 with the text of the exception in the
    detail, and that [refresh] is the last event: nothing is retried. *)
Theorem remote_failure_is_internal_error {W : Type} {world : World W}
    (fuel : nat) (request : CodegenRequest.t) (w : W) (e : pyexn) :
  (forall p,
     In (EvRun p (inl e)) (trace (run_codegen_agent fuel request w)) ->
     trace (run_codegen_agent fuel request w) = [EvRun p (inl e)] /\
     answer (run_codegen_agent fuel request w) =
       Raised (mkHTTPException 500 ("An internal error occurred: " ++ exn_str e))) /\
  (forall at_,
     In (EvRefresh at_ (inl e)) (trace (run_codegen_agent fuel request w)) ->
     (exists pre, trace (run_codegen_agent fuel request w)
                  = (pre ++ [EvRefresh at_ (inl e)])%list) /\
     answer (run_codegen_agent fuel request w) =
       Raised (mkHTTPException 500 ("An internal error occurred: " ++ exn_str e))).
Proof.
  pose proof (run_has_shape fuel request w) as Hs.
  split.
  - intros p Hin. exact (run_submit_raised_alone _ _ Hs p e Hin).
  - intros at_ Hin. exact (run_refresh_raised_last _ _ Hs at_ e Hin).
Qed.

Lemma remote_failure_is_internal_error_witness :
  (trace (run_codegen_agent 5 request_hi world_unreachable) =
     [EvRun "hi" (inl (Exception "service unreachable"))] /\
   answer (run_codegen_agent 5 request_hi world_unreachable) =
     Raised (mkHTTPException 500 "An internal error occurred: service unreachable")) /\
  ((exists pre, trace (run_codegen_agent 5 request_hi world_drops)
                = (pre ++ [EvRefresh 6 (inl (Exception "connection reset"))])%list) /\
   answer (run_codegen_agent 5 request_hi world_drops) =
     Raised (mkHTTPException 500 "An internal error occurred: connection reset")).
Proof.
  split.
  - apply (remote_failure_is_internal_error 5 request_hi world_unreachable
             (Exception "service unreachable")).
    find_in.
  - apply (remote_failure_is_internal_error 5 request_hi world_drops
             (Exception "connection reset")).
    find_in.
Defined.

(** ** The shape of every response *)

(** C8. Whenever the handler returns, it returns a response (its [status]
    is a string by construction, never absent), and at most one of [result]
    and [error] is set in it. *)
Theorem response_has_at_most_one_payload {W : Type} {world : World W}
    (fuel : nat) (request : CodegenRequest.t) (w : W) (x : option CodegenResponse.t) :
  answer (run_codegen_agent fuel request w) = Returned x ->
  exists r,
    x = Some r /\
    (CodegenResponse.result r = None \/ CodegenResponse.error r = None).
Proof.
  intros Hres.
  destruct (run_returned _ _ (run_has_shape fuel request w) x Hres)
    as [held [r [_ [-> [-> | [_ Hr]]]]]].
  - exists (timeout_response held). split; [reflexivity | now left].
  - exists r. split; [reflexivity |]. exact (proj2 (respond_fields held r Hr)).
Qed.

Lemma response_has_at_most_one_payload_witness :
  answer (run_codegen_agent 5 request_hi world_fails) =
    Returned (Some (CodegenResponse.mk "failed" None
                      (Some "Codegen task failed.") (Some "N/A"))) /\
  exists r,
    Some (CodegenResponse.mk "failed" None (Some "Codegen task failed.") (Some "N/A"))
      = Some r /\
    (CodegenResponse.result r = None \/ CodegenResponse.error r = None).
Proof.
  assert (Hres : answer (run_codegen_agent 5 request_hi world_fails) =
                 Returned (Some (CodegenResponse.mk "failed" None
                                   (Some "Codegen task failed.") (Some "N/A"))))
    by (vm_compute; reflexivity).
  split; [exact Hres |].
  exact (response_has_at_most_one_payload 5 request_hi world_fails _ Hres).
Defined.

(** C9. In every response the handler returns, [task_id] is the text of the
    id of the task as the handler holds it at the end, or "N/A" when the
    task has no [id] attribute.  In particular an id that is a string is
    passed on as it is. *)
Theorem response_carries_the_task_id {W : Type} {world : World W}
    (fuel : nat) (request : CodegenRequest.t) (w : W) (r : CodegenResponse.t) :
  answer (run_codegen_agent fuel request w) = Returned (Some r) ->
  exists task,
    held_task (trace (run_codegen_agent fuel request w)) = Some task /\
    CodegenResponse.task_id r =
      Some (match Task.id task with Some v => py_str v | None => "N/A" end) /\
    (forall s, Task.id task = Some (PyStr s) -> CodegenResponse.task_id r = Some s) /\
    (Task.id task = None -> CodegenResponse.task_id r = Some "N/A").
Proof.
  intros Hres.
  destruct (run_returned _ _ (run_has_shape fuel request w) _ Hres)
    as [held [r' [Hh [Hr' Hcase]]]].
  injection Hr' as <-.
  exists held. split; [exact Hh |].
  assert (Hid : CodegenResponse.task_id r = Some (py_str (getattr_id held))).
  { destruct Hcase as [-> | [_ Hr]]; [reflexivity |].
    exact (proj1 (respond_fields held r Hr)). }
  rewrite Hid. unfold getattr_id.
  split; [now destruct (Task.id held) |].
  split.
  - intros s Hs. rewrite Hs. reflexivity.
  - intros Hnone. rewrite Hnone. reflexivity.
Qed.

(** On [world_completes] the task has the id 42 and the response carries
    "42"; on [world_named] it has the id "run-7" and the response carries
    that text; on [world_fails] it has no id and the response carries
    "N/A". *)
Lemma response_carries_the_task_id_witness :
  (answer (run_codegen_agent 5 request_hi world_completes) =
     Returned (Some (CodegenResponse.mk "completed" (Some "done") None (Some "42"))) /\
   exists task,
     held_task (trace (run_codegen_agent 5 request_hi world_completes)) = Some task /\
     Task.id task = Some (PyInt 42) /\
     Some "42" = Some (match Task.id task with Some v => py_str v | None => "N/A" end)) /\
  (answer (run_codegen_agent 5 request_hi world_named) =
     Returned (Some (CodegenResponse.mk "running"
                       (Some "Task ID: run-7 is now active.") None (Some "run-7"))) /\
   exists task,
     held_task (trace (run_codegen_agent 5 request_hi world_named)) = Some task /\
     Task.id task = Some (PyStr "run-7") /\
     Some "run-7" = Some (match Task.id task with Some v => py_str v | None => "N/A" end)) /\
  (answer (run_codegen_agent 5 request_hi world_fails) =
     Returned (Some (CodegenResponse.mk "failed" None
                       (Some "Codegen task failed.") (Some "N/A"))) /\
   exists task,
     held_task (trace (run_codegen_agent 5 request_hi world_fails)) = Some task /\
     Task.id task = None /\
     Some "N/A" = Some (match Task.id task with Some v => py_str v | None => "N/A" end)).
Proof.
  assert (H42 : answer (run_codegen_agent 5 request_hi world_completes) =
                Returned (Some (CodegenResponse.mk "completed" (Some "done") None
                                  (Some "42"))))
    by (vm_compute; reflexivity).
  assert (Hnamed : answer (run_codegen_agent 5 request_hi world_named) =
                   Returned (Some (CodegenResponse.mk "running"
                                     (Some "Task ID: run-7 is now active.") None
                                     (Some "run-7"))))
    by (vm_compute; reflexivity).
  assert (Hna : answer (run_codegen_agent 5 request_hi world_fails) =
                Returned (Some (CodegenResponse.mk "failed" None
                                  (Some "Codegen task failed.") (Some "N/A"))))
    by (vm_compute; reflexivity).
  split; [| split].
  - split; [exact H42 |].
    destruct (response_carries_the_task_id 5 request_hi world_completes _ H42)
      as [task [Hheld [Hid _]]].
    exists task. split; [exact Hheld |]. split; [| exact Hid].
    vm_compute in Hheld. injection Hheld as <-. reflexivity.
  - split; [exact Hnamed |].
    destruct (response_carries_the_task_id 5 request_hi world_named _ Hnamed)
      as [task [Hheld [Hid _]]].
    exists task. split; [exact Hheld |]. split; [| exact Hid].
    vm_compute in Hheld. injection Hheld as <-. reflexivity.
  - split; [exact Hna |].
    destruct (response_carries_the_task_id 5 request_hi world_fails _ Hna)
      as [task [Hheld [Hid _]]].
    exists task. split; [exact Hheld |]. split; [| exact Hid].
    vm_compute in Hheld. injection Hheld as <-. reflexivity.
Defined.

(** ** A task that never leaves the pending status *)

Lemma Qgtb_intro (x y : Q) : y < x -> Qgtb x y = true.
Proof.
  intros H. unfold Qgtb. apply negb_true_iff.
  destruct (Qle_bool x y) eqn:Hle; [| reflexivity].
  apply Qle_bool_iff in Hle. destruct (Qlt_not_le _ _ H Hle).
Qed.

Section Stuck.

Context {W : Type} {world : World W}.

Hypothesis sleep_lasts : forall d w, now w + d <= now (sleep d w).

Hypothesis refresh_not_backwards :
  forall task w, now w <= now (snd (task_refresh task w)).

(** Every refresh of a pending task returns, with the task still pending. *)
Hypothesis stays_pending :
  forall task w,
    Task.status task = "pending" ->
    exists task', fst (task_refresh task w) = inr task' /\
                  Task.status task' = "pending".

(** With [n] more iterations allowed after this one, the loop reaches its
    timeout return if [3 * n] more seconds bring the clock past the limit. *)
Lemma poll_times_out (n : nat) :
  forall (start : Q) (task : Task.t) (w : W),
    Task.status task = "pending" ->
    120 < now w - start + 3 * inject_Z (Z.of_nat n) ->
    exists held,
      fst (fst (poll (S n) start task w)) = Ret (LoopReturn (timeout_response held)).
Proof.
  induction n as [| n IH]; intros start task w Hp Hlate; rewrite poll_unfold, Hp.
  - change ("pending" =? "pending") with true. cbv iota.
    unfold bind, time_time, ret.
    rewrite Qgtb_intro; [now exists task |].
    change (inject_Z timeout_seconds) with 120.
    change (inject_Z (Z.of_nat 0)) with 0 in Hlate. lra.
  - change ("pending" =? "pending") with true. cbv iota.
    unfold bind, time_time, asyncio_sleep, run_in_executor_task_refresh, ret.
    destruct (Qgtb (now w - start) (inject_Z timeout_seconds)) eqn:Hgt;
      [now exists task |].
    pose proof (sleep_lasts (inject_Z polling_interval_seconds) w) as Hs.
    pose proof (refresh_not_backwards task
                  (sleep (inject_Z polling_interval_seconds) w)) as Hr.
    destruct (stays_pending task (sleep (inject_Z polling_interval_seconds) w) Hp)
      as [task' [Hrefresh Hp']].
    destruct (task_refresh task (sleep (inject_Z polling_interval_seconds) w))
      as [r w2]. cbn [fst snd] in Hrefresh, Hr. subst r. cbn [of_result].
    rewrite Hp'. change ("pending" =? "pending") with true. cbn [negb].
    assert (Hlate' : 120 < now w2 - start + 3 * inject_Z (Z.of_nat n)).
    { rewrite Nat2Z.inj_succ in Hlate. unfold Z.succ in Hlate.
      rewrite inject_Z_plus in Hlate.
      change (inject_Z polling_interval_seconds) with 3 in Hs, Hr.
      change (inject_Z 1) with 1 in Hlate.
      set (k := inject_Z (Z.of_nat n)) in *. clearbody k.
      set (a := now w) in *. set (b := now (sleep 3 w)) in *. set (c := now w2) in *.
      clearbody a b c. lra. }
    destruct (IH start task' w2 Hp' Hlate') as [held Hheld].
    destruct (poll (S n) start task' w2) as [[o w3] tr]. cbn [fst] in Hheld.
    subst o. now exists held.
Qed.

End Stuck.

(** When every refresh leaves the task pending, sleeping advances the clock
    and refreshing does not set it back, 42 iterations are enough: the
    handler returns the timeout response. *)
Theorem stuck_task_times_out {W : Type} {world : World W}
    (fuel : nat) (request : CodegenRequest.t) (w : W) :
  (forall d (w' : W), now w' + d <= now (sleep d w')) ->
  (forall task (w' : W), now w' <= now (snd (task_refresh task w'))) ->
  (forall task (w' : W),
     Task.status task = "pending" ->
     exists task', fst (task_refresh task w') = inr task' /\
                   Task.status task' = "pending") ->
  (exists task, fst (agent_run (CodegenRequest.prompt request) w) = inr task /\
                Task.status task = "pending") ->
  (42 <= fuel)%nat ->
  exists r,
    answer (run_codegen_agent fuel request w) = Returned (Some r) /\
    CodegenResponse.status r = "timeout" /\
    CodegenResponse.error r = Some "Task timed out after 120 seconds." /\
    CodegenResponse.result r = None.
Proof.
  intros Hsleep Hrefresh Hstays [task [Hrun Hp]] Hfuel.
  destruct fuel as [| n]; [lia |].
  rewrite run_codegen_agent_eq. unfold answer.
  destruct (agent_run (CodegenRequest.prompt request) w) as [r w1].
  cbn [fst] in Hrun. subst r. rewrite Hp.
  change ("pending" =? "pending") with true. cbv iota.
  assert (Hlate : 120 < now w1 - now w1 + 3 * inject_Z (Z.of_nat n)).
  { assert (Hn : inject_Z 41 <= inject_Z (Z.of_nat n))
      by (rewrite <- Zle_Qle; lia).
    change (inject_Z 41) with 41 in Hn.
    set (k := inject_Z (Z.of_nat n)) in *. clearbody k.
    set (a := now w1). clearbody a. lra. }
  destruct (poll_times_out Hsleep Hrefresh Hstays n (now w1) task w1 Hp Hlate)
    as [held Hheld].
  destruct (poll (S n) (now w1) task w1) as [[o w2] tr]. cbn [fst] in Hheld.
  subst o. exists (timeout_response held). repeat split.
Qed.

Lemma stuck_task_times_out_witness :
  exists r,
    answer (run_codegen_agent 42 request_hi (Frozen.mk 0)) = Returned (Some r) /\
    CodegenResponse.status r = "timeout" /\
    CodegenResponse.error r = Some "Task timed out after 120 seconds." /\
    CodegenResponse.result r = None.
Proof.
  apply (stuck_task_times_out 42 request_hi (Frozen.mk 0)).
  - intros d w'. apply Qle_refl.
  - intros task w'. apply Qle_refl.
  - intros task w' Hp. now exists task.
  - now exists task_pending.
  - apply le_n.
Defined.

(** ** The loop is bounded *)

Section Termination.

Context {W : Type} {world : World W}.

Hypothesis sleep_lasts : forall d w, now w + d <= now (sleep d w).

Hypothesis refresh_not_backwards :
  forall task w, now w <= now (snd (task_refresh task w)).

(** With [n] more iterations allowed after this one, the loop ends if
    [3 * n] more seconds bring the clock past the limit. *)
Lemma poll_ends (n : nat) :
  forall (start : Q) (task : Task.t) (w : W),
    120 < now w - start + 3 * inject_Z (Z.of_nat n) ->
    fst (fst (poll (S n) start task w)) <> OutOfFuel.
Proof.
  induction n as [| n IH]; intros start task w Hlate; rewrite poll_unfold;
    (destruct (Task.status task =? "pending"); [| discriminate]);
    unfold bind, time_time, asyncio_sleep, run_in_executor_task_refresh, ret.
  - rewrite Qgtb_intro; [discriminate |].
    change (inject_Z timeout_seconds) with 120.
    change (inject_Z (Z.of_nat 0)) with 0 in Hlate. lra.
  - destruct (Qgtb (now w - start) (inject_Z timeout_seconds)); [discriminate |].
    pose proof (sleep_lasts (inject_Z polling_interval_seconds) w) as Hs.
    pose proof (refresh_not_backwards task
                  (sleep (inject_Z polling_interval_seconds) w)) as Hr.
    destruct (task_refresh task (sleep (inject_Z polling_interval_seconds) w))
      as [[e | task'] w2]; cbn [fst snd of_result] in *; [discriminate |].
    destruct (negb (Task.status task' =? "pending")); [discriminate |].
    assert (Hlate' : 120 < now w2 - start + 3 * inject_Z (Z.of_nat n)).
    { rewrite Nat2Z.inj_succ in Hlate. unfold Z.succ in Hlate.
      rewrite inject_Z_plus in Hlate.
      change (inject_Z polling_interval_seconds) with 3 in Hs, Hr.
      change (inject_Z 1) with 1 in Hlate.
      set (k := inject_Z (Z.of_nat n)) in *. clearbody k.
      set (a := now w) in *. set (b := now (sleep 3 w)) in *. set (c := now w2) in *.
      clearbody a b c. lra. }
    specialize (IH start task' w2 Hlate').
    destruct (poll (S n) start task' w2) as [[o w3] tr]. cbn [fst] in *.
    destruct o; [discriminate | discriminate | now destruct IH].
Qed.

End Termination.

(** On a clock that a sleep of [d] seconds advances by at least [d] and that
    does not run backwards during a refresh, the loop makes at most 41
    refreshes, whatever the task does: with fuel for 42 iterations the
    endpoint always answers. *)
Theorem endpoint_answers {W : Type} {world : World W}
    (fuel : nat) (request : CodegenRequest.t) (w : W) :
  (forall d (w' : W), now w' + d <= now (sleep d w')) ->
  (forall task (w' : W), now w' <= now (snd (task_refresh task w'))) ->
  (42 <= fuel)%nat ->
  answer (run_codegen_agent fuel request w) <> NoAnswer.
Proof.
  intros Hsleep Hrefresh Hfuel.
  destruct fuel as [| n]; [lia |].
  rewrite run_codegen_agent_eq. unfold answer.
  destruct (agent_run (CodegenRequest.prompt request) w) as [[e | task] w1];
    [discriminate |].
  destruct (Task.status task =? "pending") eqn:Hp.
  - assert (Hlate : 120 < now w1 - now w1 + 3 * inject_Z (Z.of_nat n)).
    { assert (Hn : inject_Z 41 <= inject_Z (Z.of_nat n))
        by (rewrite <- Zle_Qle; lia).
      change (inject_Z 41) with 41 in Hn.
      set (k := inject_Z (Z.of_nat n)) in *. clearbody k.
      set (a := now w1). clearbody a. lra. }
    pose proof (poll_ends Hsleep Hrefresh n (now w1) task w1 Hlate) as Hend.
    destruct (poll (S n) (now w1) task w1) as [[o w2] tr]. cbn [fst] in *.
    destruct o as [[r | task'] | e |]; simpl; try discriminate.
    now destruct Hend.
  - simpl. discriminate.
Qed.

Lemma endpoint_answers_witness :
  answer (run_codegen_agent 42 request_hi world_late) <> NoAnswer.
Proof.
  apply (endpoint_answers 42 request_hi world_late).
  - exact script_sleep_lasts.
  - exact script_refresh_not_backwards.
  - apply le_n.
Defined.

(** ** Start-up *)

Lemma truthy_spec (v : option string) : truthy v = true <-> set_and_nonempty v.
Proof.
  unfold truthy, set_and_nonempty. destruct v as [s |].
  - rewrite negb_true_iff. split.
    + intros H. exists s. split; [reflexivity |]. now apply String.eqb_neq.
    + intros [s' [Hs Hne]]. injection Hs as <-. now apply String.eqb_neq.
  - split; [discriminate | intros [s [Hs _]]; discriminate Hs].
Qed.

(** The module finishes its import exactly when the three settings are all
    present and non-empty and the SDK constructor, called with the first
    two, does not raise; the globals are then the settings as read.  A
    setting that is absent, or present but empty, stops the import with the
    "Missing required environment variables" error, whatever the constructor
    would do; a constructor that raises stops it with an error that carries
    the exception's text. *)
Theorem startup_needs_nonempty_settings {A : Type}
    (Agent : option string -> option string -> pyexn + A)
    (environ : list (string * string)) :
  (forall org token key agent,
     module_init Agent environ = Started org token key agent <->
     org = os_getenv environ "CODEGEN_ORG_ID" /\
     token = os_getenv environ "CODEGEN_API_TOKEN" /\
     key = os_getenv environ "APP_API_KEY" /\
     set_and_nonempty org /\ set_and_nonempty token /\ set_and_nonempty key /\
     Agent org token = inr agent) /\
  (~ (set_and_nonempty (os_getenv environ "CODEGEN_ORG_ID") /\
      set_and_nonempty (os_getenv environ "CODEGEN_API_TOKEN") /\
      set_and_nonempty (os_getenv environ "APP_API_KEY")) ->
   module_init Agent environ =
   RuntimeError "Missing required environment variables: CODEGEN_ORG_ID, CODEGEN_API_TOKEN, APP_API_KEY") /\
  (forall e,
     set_and_nonempty (os_getenv environ "CODEGEN_ORG_ID") ->
     set_and_nonempty (os_getenv environ "CODEGEN_API_TOKEN") ->
     set_and_nonempty (os_getenv environ "APP_API_KEY") ->
     Agent (os_getenv environ "CODEGEN_ORG_ID") (os_getenv environ "CODEGEN_API_TOKEN")
       = inl e ->
     module_init Agent environ =
     RuntimeError ("Could not initialize Codegen Agent: " ++ exn_str e)).
Proof.
  unfold module_init.
  set (o := os_getenv environ "CODEGEN_ORG_ID").
  set (t := os_getenv environ "CODEGEN_API_TOKEN").
  set (k := os_getenv environ "APP_API_KEY").
  cbn [forallb].
  pose proof (truthy_spec o) as Ho.
  pose proof (truthy_spec t) as Ht.
  pose proof (truthy_spec k) as Hk.
  destruct (truthy o); destruct (truthy t); destruct (truthy k); cbn [andb negb];
    (split; [intros org token key agent; split;
               [intros H | intros (-> & -> & -> & Ho' & Ht' & Hk' & Hagent)]
            | split; [intros Hnot | intros e Ho' Ht' Hk' Hagent]]);
    try discriminate;
    try (apply Ho in Ho'; discriminate Ho');
    try (apply Ht in Ht'; discriminate Ht');
    try (apply Hk in Hk'; discriminate Hk');
    try reflexivity.
  - destruct (Agent o t) as [e | a] eqn:Hagent; [discriminate H |].
    injection H as <- <- <- <-.
    repeat split;
      first [now apply Ho | now apply Ht | now apply Hk | exact Hagent].
  - now rewrite Hagent.
  - destruct Hnot. repeat split; first [now apply Ho | now apply Ht | now apply Hk].
  - now rewrite Hagent.
Qed.

Lemma startup_needs_nonempty_settings_witness :
  module_init agent_accepts environ_full =
    Started (Some "323") (Some "sk-abc") (Some "secret") ("323", "sk-abc") /\
  module_init agent_accepts environ_empty_key =
    RuntimeError "Missing required environment variables: CODEGEN_ORG_ID, CODEGEN_API_TOKEN, APP_API_KEY" /\
  module_init agent_refuses environ_full =
    RuntimeError "Could not initialize Codegen Agent: invalid credentials".
Proof.
  split; [| split].
  - apply (startup_needs_nonempty_settings agent_accepts environ_full).
    repeat split; try (eexists; split; [reflexivity | discriminate]).
  - apply (startup_needs_nonempty_settings agent_accepts environ_empty_key).
    intros (_ & _ & [s [Hs Hne]]). injection Hs as <-. now apply Hne.
  - apply (proj2 (proj2 (startup_needs_nonempty_settings agent_refuses environ_full))
             (Exception "invalid credentials"));
      try (eexists; split; [reflexivity | discriminate]).
    reflexivity.
Defined.

(** Once the module has started, the secret the gate compares with is a
    non-empty string: a request whose credential is empty is rejected, with
    403 or 401, whatever its scheme. *)
Theorem empty_credential_is_rejected {A : Type}
    (Agent : option string -> option string -> pyexn + A)
    (environ : list (string * string))
    (org token : option string) (key : string) (agent : A)
    (c : HTTPAuthorizationCredentials) :
  module_init Agent environ = Started org token (Some key) agent ->
  credentials c = "" ->
  exists h,
    verify_api_key key c = inl h /\
    (status_code h = 403%Z \/ status_code h = 401%Z).
Proof.
  intros Hstart Hempty.
  apply (startup_needs_nonempty_settings Agent environ) in Hstart.
  destruct Hstart as (_ & _ & _ & _ & _ & [k [Hk Hne]] & _).
  injection Hk as <-.
  unfold verify_api_key.
  destruct (scheme c =? "Bearer"); cbn [negb].
  - rewrite Hempty.
    assert (Hneq : ("" =? key) = false) by (apply String.eqb_neq; congruence).
    rewrite Hneq. cbn [negb]. eexists; split; [reflexivity | now right].
  - eexists; split; [reflexivity | now left].
Qed.

Lemma empty_credential_is_rejected_witness :
  module_init agent_accepts environ_full =
    Started (Some "323") (Some "sk-abc") (Some "secret") ("323", "sk-abc") /\
  exists h,
    verify_api_key "secret" (mkCredentials "Bearer" "") = inl h /\
    (status_code h = 403%Z \/ status_code h = 401%Z).
Proof.
  assert (Hstart : module_init agent_accepts environ_full =
                   Started (Some "323") (Some "sk-abc") (Some "secret") ("323", "sk-abc"))
    by reflexivity.
  split; [exact Hstart |].
  exact (empty_credential_is_rejected agent_accepts environ_full _ _ "secret" _
           (mkCredentials "Bearer" "") Hstart eq_refl).
Defined.

(** ** What a response says about the task *)

Lemma respond_cases (task : Task.t) (r : CodegenResponse.t) :
  respond task = Some r ->
  (r = active_response task /\
   Task.status task <> "pending" /\ Task.status task <> "completed" /\
   Task.status task <> "failed") \/
  (r = completed_response task /\ Task.status task = "completed") \/
  (r = failed_response task /\ Task.status task = "failed").
Proof.
  unfold respond, status_in. cbn [existsb]. rewrite orb_false_r.
  destruct (String.eqb_spec (Task.status task) "pending") as [Hp | Hp];
    destruct (String.eqb_spec (Task.status task) "completed") as [Hc | Hc];
    destruct (String.eqb_spec (Task.status task) "failed") as [Hf | Hf];
    cbn [orb negb]; intros H; try discriminate H; injection H as <-; auto.
Qed.

(** The two ways the loop lets the endpoint return: by the timeout, with the
    held task pending and the last event a clock reading past the limit, or
    with the held task off the pending status. *)
Lemma shape_returned_cases start task tr o x :
  poll_shape start task tr o ->
  finish o = Returned x ->
  exists held r,
    held_after (Some task) tr = Some held /\
    x = Some r /\
    ((Task.status held = "pending" /\ r = timeout_response held /\
      exists pre t, tr = (pre ++ [EvTime t])%list /\
                    inject_Z timeout_seconds < t - start) \/
     (Task.status held <> "pending" /\ respond held = Some r)).
Proof.
  induction 1 as [task Hp | task Hp | task t0 Hp Ht | task t0 a e0 Hp Ht
                 | task t0 a task1 tr o Hp Ht Hs IH];
    intros Hfin; simpl in Hfin; try discriminate Hfin.
  - injection Hfin as <-.
    destruct (respond_not_pending task Hp) as [Hr | [Hr | Hr]];
      eexists task, _; (split; [reflexivity |]); (split; [exact Hr |]);
      right; (split; [exact Hp | exact Hr]).
  - injection Hfin as <-. exists task, (timeout_response task).
    split; [reflexivity |]. split; [reflexivity |]. left.
    split; [exact Hp |]. split; [reflexivity |]. now exists [], t0.
  - destruct (IH Hfin) as [held [r [Hh [Hx Hcase]]]].
    exists held, r. split; [exact Hh |]. split; [exact Hx |].
    destruct Hcase as [(Hpend & Hr & pre & t & -> & Hlate) | Hdone]; [left | now right].
    split; [exact Hpend |]. split; [exact Hr |].
    now exists (EvTime t0 :: EvSleep t0 (inject_Z polling_interval_seconds)
                  :: EvRefresh a (inr task1) :: pre), t.
Qed.

Lemma run_returned_cases tr res :
  run_shape tr res ->
  forall x, res = Returned x ->
    exists held r,
      held_task tr = Some held /\
      x = Some r /\
      ((Task.status held = "pending" /\ r = timeout_response held /\
        exists pre start t,
          tr = (pre ++ [EvTime t])%list /\ start_time_of tr = Some start /\
          120 < t - start) \/
       (Task.status held <> "pending" /\ respond held = Some r)).
Proof.
  destruct 1 as [p0 e0 | p0 t0 start0 ptr o Hp]; intros x Hres;
    [discriminate Hres |].
  destruct (shape_returned_cases _ _ _ _ _ Hp Hres) as [held [r [Hh [Hx Hcase]]]].
  exists held, r. split; [exact Hh |]. split; [exact Hx |].
  destruct Hcase as [(Hpend & Hr & pre & t & -> & Hlate) | Hdone]; [left | now right].
  split; [exact Hpend |]. split; [exact Hr |].
  now exists (EvRun p0 (inr t0) :: EvTime start0 :: pre), start0, t.
Qed.

(** The status of a response is the status of the task as held at the end,
    except that a task still pending is reported as "timeout": the handler
    never answers "pending". *)
Theorem response_status_follows_task {W : Type} {world : World W}
    (fuel : nat) (request : CodegenRequest.t) (w : W) (r : CodegenResponse.t) :
  answer (run_codegen_agent fuel request w) = Returned (Some r) ->
  CodegenResponse.status r <> "pending" /\
  exists held,
    held_task (trace (run_codegen_agent fuel request w)) = Some held /\
    CodegenResponse.status r =
      if Task.status held =? "pending" then "timeout" else Task.status held.
Proof.
  intros Hres.
  destruct (run_returned_cases _ _ (run_has_shape fuel request w) _ Hres)
    as [held [r' [Hh [Hr' Hcase]]]].
  injection Hr' as <-.
  assert (Hstatus : CodegenResponse.status r =
                    if Task.status held =? "pending" then "timeout" else Task.status held).
  { destruct Hcase as [(Hpend & -> & _) | [Hnp Hr]].
    - rewrite Hpend. reflexivity.
    - apply String.eqb_neq in Hnp. rewrite Hnp.
      destruct (respond_cases held r Hr) as [[-> _] | [[-> _] | [-> _]]]; reflexivity. }
  split; [| now exists held].
  rewrite Hstatus.
  destruct (String.eqb_spec (Task.status held) "pending") as [_ | Hnp];
    [discriminate | exact Hnp].
Qed.

Lemma response_status_follows_task_witness :
  answer (run_codegen_agent 42 request_hi world_stuck) =
    Returned (Some (CodegenResponse.mk "timeout" None
                      (Some "Task timed out after 120 seconds.") (Some "42"))) /\
  "timeout" <> "pending" /\
  exists held,
    held_task (trace (run_codegen_agent 42 request_hi world_stuck)) = Some held /\
    "timeout" = if Task.status held =? "pending" then "timeout" else Task.status held.
Proof.
  assert (Hres : answer (run_codegen_agent 42 request_hi world_stuck) =
                 Returned (Some (CodegenResponse.mk "timeout" None
                                   (Some "Task timed out after 120 seconds.")
                                   (Some "42"))))
    by (vm_compute; reflexivity).
  split; [exact Hres |].
  exact (response_status_follows_task 42 request_hi world_stuck _ Hres).
Defined.

(** A response says "completed" only for a task held completed, and then
    carries its result as text and no error; it says "failed" only for a
    task held failed, and then carries its error message, or the fallback
    text, and no result. *)
Theorem terminal_status_is_sound {W : Type} {world : World W}
    (fuel : nat) (request : CodegenRequest.t) (w : W) (r : CodegenResponse.t) :
  answer (run_codegen_agent fuel request w) = Returned (Some r) ->
  CodegenResponse.status r = "completed" \/ CodegenResponse.status r = "failed" ->
  exists held,
    held_task (trace (run_codegen_agent fuel request w)) = Some held /\
    Task.status held = CodegenResponse.status r /\
    ((CodegenResponse.status r = "completed" /\
      CodegenResponse.result r = Some (py_str (Task.result held)) /\
      CodegenResponse.error r = None) \/
     (CodegenResponse.status r = "failed" /\
      CodegenResponse.result r = None /\
      CodegenResponse.error r = Some (getattr_error_message held))).
Proof.
  intros Hres Hterm.
  destruct (run_returned_cases _ _ (run_has_shape fuel request w) _ Hres)
    as [held [r' [Hh [Hr' Hcase]]]].
  injection Hr' as <-. exists held. split; [exact Hh |].
  destruct Hcase as [(_ & -> & _) | [Hnp Hr]].
  - destruct Hterm as [H | H]; discriminate H.
  - destruct (respond_cases held r Hr) as [(-> & _ & Hc & Hf) | [[-> Hc] | [-> Hf]]].
    + destruct Hterm as [H | H]; simpl in H; contradiction.
    + split; [reflexivity |]. left. simpl. now rewrite Hc.
    + split; [reflexivity |]. right. simpl. now rewrite Hf.
Qed.

Lemma terminal_status_is_sound_witness :
  answer (run_codegen_agent 5 request_hi world_completes) =
    Returned (Some (CodegenResponse.mk "completed" (Some "done") None (Some "42"))) /\
  exists held,
    held_task (trace (run_codegen_agent 5 request_hi world_completes)) = Some held /\
    Task.status held = "completed" /\
    (("completed" = "completed" /\ Some "done" = Some (py_str (Task.result held)) /\
      @None string = None) \/
     ("completed" = "failed" /\ Some "done" = None /\
      None = Some (getattr_error_message held))).
Proof.
  assert (Hres : answer (run_codegen_agent 5 request_hi world_completes) =
                 Returned (Some (CodegenResponse.mk "completed" (Some "done") None
                                   (Some "42"))))
    by (vm_compute; reflexivity).
  split; [exact Hres |].
  exact (terminal_status_is_sound 5 request_hi world_completes _ Hres
           (or_introl eq_refl)).
Defined.

(** A timeout is never announced early: a response with status "timeout"
    and an error is returned only right after a reading of the clock that is
    more than 120 seconds past [start_time], with the task still pending. *)
Theorem timeout_is_never_early {W : Type} {world : World W}
    (fuel : nat) (request : CodegenRequest.t) (w : W) (r : CodegenResponse.t) :
  answer (run_codegen_agent fuel request w) = Returned (Some r) ->
  CodegenResponse.status r = "timeout" ->
  CodegenResponse.error r <> None ->
  exists pre start t held,
    trace (run_codegen_agent fuel request w) = (pre ++ [EvTime t])%list /\
    start_time_of (trace (run_codegen_agent fuel request w)) = Some start /\
    120 < t - start /\
    held_task (trace (run_codegen_agent fuel request w)) = Some held /\
    Task.status held = "pending".
Proof.
  intros Hres Hstatus Herror.
  destruct (run_returned_cases _ _ (run_has_shape fuel request w) _ Hres)
    as [held [r' [Hh [Hr' Hcase]]]].
  injection Hr' as <-.
  destruct Hcase as [(Hpend & _ & pre & start & t & Htr & Hstart & Hlate) | [Hnp Hr]].
  - now exists pre, start, t, held.
  - exfalso.
    destruct (respond_cases held r Hr) as [[-> _] | [[-> Hc] | [-> Hf]]];
      simpl in Hstatus, Herror.
    + now apply Herror.
    + now apply Herror.
    + rewrite Hf in Hstatus. discriminate Hstatus.
Qed.

Lemma timeout_is_never_early_witness :
  answer (run_codegen_agent 42 request_hi world_stuck) =
    Returned (Some (CodegenResponse.mk "timeout" None
                      (Some "Task timed out after 120 seconds.") (Some "42"))) /\
  exists pre start t held,
    trace (run_codegen_agent 42 request_hi world_stuck) = (pre ++ [EvTime t])%list /\
    start_time_of (trace (run_codegen_agent 42 request_hi world_stuck)) = Some start /\
    120 < t - start /\
    held_task (trace (run_codegen_agent 42 request_hi world_stuck)) = Some held /\
    Task.status held = "pending".
Proof.
  assert (Hres : answer (run_codegen_agent 42 request_hi world_stuck) =
                 Returned (Some (CodegenResponse.mk "timeout" None
                                   (Some "Task timed out after 120 seconds.")
                                   (Some "42"))))
    by (vm_compute; reflexivity).
  split; [exact Hres |].
  apply (timeout_is_never_early 42 request_hi world_stuck _ Hres);
    [reflexivity | discriminate].
Defined.

(** ** How many calls a request makes *)

Lemma shape_counts start task tr o :
  poll_shape start task tr o ->
  filter is_run tr = [] /\
  length (filter is_sleep tr) = length (refresh_times tr).
Proof.
  induction 1 as [task Hp | task Hp | task t0 Hp Ht | task t0 a e0 Hp Ht
                 | task t0 a task1 tr o Hp Ht Hs [IHrun IHsleep]];
    simpl; try (split; reflexivity).
  split; [exact IHrun | now rewrite IHsleep].
Qed.

(** Each request calls [agent.run] exactly once, first of all and with the
    prompt of the request as it is; whatever the outcome, the call is never
    repeated. *)
Theorem prompt_is_submitted_once {W : Type} {world : World W}
    (fuel : nat) (request : CodegenRequest.t) (w : W) :
  filter is_run (trace (run_codegen_agent fuel request w)) =
    [EvRun (CodegenRequest.prompt request)
           (fst (agent_run (CodegenRequest.prompt request) w))] /\
  exists rest,
    trace (run_codegen_agent fuel request w) =
    EvRun (CodegenRequest.prompt request)
          (fst (agent_run (CodegenRequest.prompt request) w)) :: rest.
Proof.
  rewrite run_codegen_agent_eq. unfold trace.
  destruct (agent_run (CodegenRequest.prompt request) w) as [[e | task] w1]; simpl.
  - split; [reflexivity | now exists []].
  - destruct (Task.status task =? "pending").
    + pose proof (poll_has_shape fuel (now w1) task w1) as Hs.
      destruct (poll fuel (now w1) task w1) as [[o w2] tr]. simpl in *.
      destruct (shape_counts _ _ _ _ Hs) as [-> _].
      split; [reflexivity | now eexists].
    + simpl. split; [reflexivity | now eexists].
Qed.

(** Every sleep of a request is followed by a refresh: there are as many
    sleeps as refreshes, so the handler never waits without polling
    afterwards. *)
Theorem sleeps_match_refreshes {W : Type} {world : World W}
    (fuel : nat) (request : CodegenRequest.t) (w : W) :
  length (filter is_sleep (trace (run_codegen_agent fuel request w))) =
  length (refresh_times (trace (run_codegen_agent fuel request w))).
Proof.
  pose proof (run_has_shape fuel request w) as Hs.
  destruct Hs as [p e | p task start tr o Hp]; [reflexivity |].
  simpl. exact (proj2 (shape_counts _ _ _ _ Hp)).
Qed.

(** A task that is not pending when [agent.run] returns is answered at
    once: the only events are the call to [agent.run] and the reading of
    [start_time]; the handler neither sleeps nor refreshes, and the world is
    left as [agent.run] left it. *)
Theorem settled_task_is_not_polled {W : Type} {world : World W}
    (fuel : nat) (request : CodegenRequest.t) (w : W) (task : Task.t) :
  fst (agent_run (CodegenRequest.prompt request) w) = inr task ->
  Task.status task <> "pending" ->
  run_codegen_agent fuel request w =
  (Returned (respond task),
   snd (agent_run (CodegenRequest.prompt request) w),
   [EvRun (CodegenRequest.prompt request) (inr task);
    EvTime (now (snd (agent_run (CodegenRequest.prompt request) w)))]) /\
  respond task <> None.
Proof.
  intros Hrun Hnp. rewrite run_codegen_agent_eq.
  destruct (agent_run (CodegenRequest.prompt request) w) as [r w1].
  cbn [fst snd] in *. subst r.
  split.
  - apply String.eqb_neq in Hnp. rewrite Hnp. reflexivity.
  - destruct (respond_not_pending task Hnp) as [-> | [-> | ->]]; discriminate.
Qed.

Lemma settled_task_is_not_polled_witness :
  run_codegen_agent 0 request_hi (Script.mk 7 (inr task_running) 2 [inr task_completed]) =
  (Returned (Some (CodegenResponse.mk "running" (Some "Task ID: 42 is now active.")
                     None (Some "42"))),
   Script.mk (7 + 2) (inr task_running) 2 [inr task_completed],
   [EvRun "hi" (inr task_running); EvTime (7 + 2)]) /\
  Some (CodegenResponse.mk "running" (Some "Task ID: 42 is now active.")
          None (Some "42")) <> None.
Proof.
  assert (Hnp : Task.status task_running <> "pending") by discriminate.
  exact (settled_task_is_not_polled 0 request_hi
           (Script.mk 7 (inr task_running) 2 [inr task_completed]) task_running
           eq_refl Hnp).
Defined.

Section Bound.

Context {W : Type} {world : World W}.

Hypothesis sleep_lasts : forall d w, now w + d <= now (sleep d w).

Hypothesis refresh_not_backwards :
  forall task w, now w <= now (snd (task_refresh task w)).

(** When [3 * n] more seconds bring the clock past the limit, the loop makes
    at most [n] more refreshes, whatever its fuel. *)
Lemma poll_refresh_count (n : nat) :
  forall (fuel : nat) (start : Q) (task : Task.t) (w : W),
    120 < now w - start + 3 * inject_Z (Z.of_nat n) ->
    (length (refresh_times (snd (poll fuel start task w))) <= n)%nat.
Proof.
  induction n as [| n IH]; intros fuel start task w Hlate;
    (destruct fuel as [| fuel];
       [simpl; destruct (Task.status task =? "pending"); simpl; lia |]);
    rewrite poll_unfold;
    (destruct (Task.status task =? "pending"); [| simpl; lia]);
    unfold bind, time_time, asyncio_sleep, run_in_executor_task_refresh, ret.
  - rewrite Qgtb_intro; [simpl; lia |].
    change (inject_Z timeout_seconds) with 120.
    change (inject_Z (Z.of_nat 0)) with 0 in Hlate. lra.
  - destruct (Qgtb (now w - start) (inject_Z timeout_seconds)); [simpl; lia |].
    pose proof (sleep_lasts (inject_Z polling_interval_seconds) w) as Hs.
    pose proof (refresh_not_backwards task
                  (sleep (inject_Z polling_interval_seconds) w)) as Hr.
    destruct (task_refresh task (sleep (inject_Z polling_interval_seconds) w))
      as [[e | task'] w2]; cbn [fst snd of_result] in *; [simpl; lia |].
    destruct (negb (Task.status task' =? "pending")); [simpl; lia |].
    assert (Hlate' : 120 < now w2 - start + 3 * inject_Z (Z.of_nat n)).
    { rewrite Nat2Z.inj_succ in Hlate. unfold Z.succ in Hlate.
      rewrite inject_Z_plus in Hlate.
      change (inject_Z polling_interval_seconds) with 3 in Hs, Hr.
      change (inject_Z 1) with 1 in Hlate.
      set (k := inject_Z (Z.of_nat n)) in *. clearbody k.
      set (a := now w) in *. set (b := now (sleep 3 w)) in *. set (c := now w2) in *.
      clearbody a b c. lra. }
    specialize (IH fuel start task' w2 Hlate').
    destruct (poll fuel start task' w2) as [[o w3] tr]. simpl in *. lia.
Qed.

End Bound.

(** On a clock that a sleep of [d] seconds advances by at least [d] and that
    does not run backwards during a refresh, a request makes at most 41
    refresh calls, whatever the task does. *)
Theorem at_most_41_refreshes {W : Type} {world : World W}
    (fuel : nat) (request : CodegenRequest.t) (w : W) :
  (forall d (w' : W), now w' + d <= now (sleep d w')) ->
  (forall task (w' : W), now w' <= now (snd (task_refresh task w'))) ->
  (length (refresh_times (trace (run_codegen_agent fuel request w))) <= 41)%nat.
Proof.
  intros Hsleep Hrefresh.
  rewrite run_codegen_agent_eq. unfold trace.
  destruct (agent_run (CodegenRequest.prompt request) w) as [[e | task] w1];
    [simpl; lia |].
  destruct (Task.status task =? "pending"); [| simpl; lia].
  assert (Hlate : 120 < now w1 - now w1 + 3 * inject_Z (Z.of_nat 41)).
  { change (inject_Z (Z.of_nat 41)) with 41.
    set (a := now w1). clearbody a. lra. }
  pose proof (poll_refresh_count Hsleep Hrefresh 41 fuel (now w1) task w1 Hlate) as Hn.
  destruct (poll fuel (now w1) task w1) as [[o w2] tr]. simpl in *. exact Hn.
Qed.

(** The bound is reached: the run on [world_late] makes 41 refreshes. *)
Lemma at_most_41_refreshes_witness :
  length (refresh_times (trace (run_codegen_agent 100 request_hi world_late))) = 41%nat /\
  (length (refresh_times (trace (run_codegen_agent 100 request_hi world_late))) <= 41)%nat.
Proof.
  split; [vm_compute; reflexivity |].
  apply (at_most_41_refreshes 100 request_hi world_late).
  - exact script_sleep_lasts.
  - exact script_refresh_not_backwards.
Defined.
